(** * Autostart entries of the MATE session properties capplet

    A shallow embedding of [capplet/gsp-app.c]: the [GspAppPrivate]
    record, the deferred-save machinery ([_gsp_app_queue_save],
    [_gsp_app_save]), the editing entry points ([gsp_app_update],
    [gsp_app_set_hidden], [gsp_app_delete]), loading ([gsp_app_new]) and
    creation ([_gsp_find_free_basename], [gsp_app_create]).

    C data is modelled as the code has it: [char *] is [option string]
    ([None] is [NULL]), [guint] and [unsigned int] are [Z] (the code only
    compares them, takes [MIN] and ors bit masks, so no wrap-around is
    involved), [gboolean] is [bool].  GObject instances live in a heap
    indexed by object identifiers; the registry of [GspAppManager] is a
    list of such identifiers. *)

From Stdlib Require Import ZArith String Ascii List Bool Lia DecimalString.
From stdpp Require Import gmap strings list.

Local Open Scope Z_scope.
Local Open Scope string_scope.

(** ** Constants of gsp-app.c *)

Definition GSP_APP_SAVE_DELAY : Z := 2.

Definition GSP_ASP_SAVE_MASK_HIDDEN : Z := 0x0001.
Definition GSP_ASP_SAVE_MASK_NAME : Z := 0x0002.
Definition GSP_ASP_SAVE_MASK_EXEC : Z := 0x0004.
Definition GSP_ASP_SAVE_MASK_COMMENT : Z := 0x0008.
Definition GSP_ASP_SAVE_MASK_DELAY : Z := 0x0010.
Definition GSP_ASP_SAVE_MASK_ALL : Z := 0xffff.

Definition G_MAXUINT : Z := 4294967295.

Definition _GSP_FIND_MAX_TRY : Z := 10000.

(** ** Strings and paths (GLib) *)

(** [g_strcmp0 (a, b) == 0]: [NULL] compares equal to [NULL] only. *)
Definition g_strcmp0_is_zero (a b : option string) : bool :=
  match a, b with
  | None, None => true
  | Some x, Some y => String.eqb x y
  | _, _ => false
  end.

(** [s && s[0] == '\0'] *)
Definition is_empty_string (s : option string) : bool :=
  match s with
  | Some EmptyString => true
  | _ => false
  end.

Definition is_null {A} (s : option A) : bool :=
  match s with
  | None => true
  | Some _ => false
  end.

(** gsp-app.c, lines 92-106. *)
Definition _gsp_str_equal (a b : option string) : bool :=
  if g_strcmp0_is_zero a b then true
  else if is_empty_string a && is_null b then true
  else if is_empty_string b && is_null a then true
  else false.

Definition is_dir_separator (c : ascii) : bool := Ascii.eqb c "/"%char.

Fixpoint strip_trailing_separators (s : string) : string :=
  match s with
  | EmptyString => EmptyString
  | String c s' =>
      let r := strip_trailing_separators s' in
      if is_dir_separator c && String.eqb r EmptyString then EmptyString
      else String c r
  end.

Fixpoint last_component (acc s : string) : string :=
  match s with
  | EmptyString => acc
  | String c s' =>
      if is_dir_separator c then last_component EmptyString s'
      else last_component (acc ++ String c EmptyString) s'
  end.

(** [g_path_get_basename]: the last component, trailing separators
    ignored; "." for the empty name and "/" for a name made of separators
    only. *)
Definition g_path_get_basename (file_name : string) : string :=
  match file_name with
  | EmptyString => "."
  | _ =>
      match strip_trailing_separators file_name with
      | EmptyString => "/"
      | s => last_component EmptyString s
      end
  end.

Fixpoint until_null (elts : list (option string)) : list string :=
  match elts with
  | Some s :: rest => s :: until_null rest
  | _ => nil
  end.

(** [g_build_filename (e1, ..., NULL)]: the elements before the first
    [NULL], empty ones skipped, joined by the directory separator.  GLib
    also collapses separators that meet at a joint; the callers here pass
    a configuration directory, the literal "autostart" and a base name. *)
Definition g_build_filename (elts : list (option string)) : string :=
  String.concat "/"
    (List.filter (fun s => negb (String.eqb s EmptyString)) (until_null elts)).

Definition g_path_is_absolute (s : string) : bool :=
  match s with
  | String c _ => is_dir_separator c
  | EmptyString => false
  end.

Fixpoint string_rev_acc (acc s : string) : string :=
  match s with
  | EmptyString => acc
  | String c s' => string_rev_acc (String c acc) s'
  end.

Definition g_str_has_suffix (s suffix : string) : bool :=
  String.prefix (string_rev_acc EmptyString suffix)
                (string_rev_acc EmptyString s).

(** [g_strndup (s, n)] for [n] no larger than the length of [s]. *)
Definition g_strndup (s : string) (n : nat) : string := String.substring 0 n s.

(** [%d] of [g_strdup_printf]. *)
Definition printf_d (i : Z) : string := NilZero.string_of_int (Z.to_int i).

(** ** The key file (the structured configuration document)

    Modelled from the spec: the typed accessors of gsp-keyfile.c and the
    GKeyFile they wrap are not among the sources.  A document is the
    record of what the getters used by gsp-app.c return on it; a locale
    string stands for the value resolved in the current locale, so
    [gsp_key_file_ensure_C_key] has nothing to add.  [kf_other] holds the
    keys, comments and translations that gsp-app.c never reads. *)

Record GKeyFile := {
  kf_hidden : option bool;
  kf_nodisplay : option bool;
  kf_name : option string;
  kf_comment : option string;
  kf_exec : option string;
  kf_icon : option string;
  kf_delay : option Z;
  kf_only_show_in : option (list string);
  kf_not_show_in : option (list string);
  kf_other : list (string * string)
}.

Definition g_key_file_new : GKeyFile :=
  {| kf_hidden := None; kf_nodisplay := None; kf_name := None;
     kf_comment := None; kf_exec := None; kf_icon := None; kf_delay := None;
     kf_only_show_in := None; kf_not_show_in := None; kf_other := nil |}.

Inductive BoolKey := G_KEY_FILE_DESKTOP_KEY_HIDDEN | G_KEY_FILE_DESKTOP_KEY_NO_DISPLAY.

Inductive StringKey :=
| G_KEY_FILE_DESKTOP_KEY_NAME
| G_KEY_FILE_DESKTOP_KEY_COMMENT
| G_KEY_FILE_DESKTOP_KEY_EXEC
| G_KEY_FILE_DESKTOP_KEY_ICON.

Inductive ListKey :=
| G_KEY_FILE_DESKTOP_KEY_ONLY_SHOW_IN
| G_KEY_FILE_DESKTOP_KEY_NOT_SHOW_IN.

Definition gsp_key_file_get_boolean (kf : GKeyFile) (k : BoolKey)
    (default : bool) : bool :=
  match (match k with
         | G_KEY_FILE_DESKTOP_KEY_HIDDEN => kf_hidden kf
         | G_KEY_FILE_DESKTOP_KEY_NO_DISPLAY => kf_nodisplay kf
         end) with
  | Some b => b
  | None => default
  end.

Definition gsp_key_file_get_string (kf : GKeyFile) (k : StringKey)
    : option string :=
  match k with
  | G_KEY_FILE_DESKTOP_KEY_NAME => kf_name kf
  | G_KEY_FILE_DESKTOP_KEY_COMMENT => kf_comment kf
  | G_KEY_FILE_DESKTOP_KEY_EXEC => kf_exec kf
  | G_KEY_FILE_DESKTOP_KEY_ICON => kf_icon kf
  end.

Definition gsp_key_file_get_locale_string := gsp_key_file_get_string.

Definition gsp_key_file_get_delay (kf : GKeyFile) : Z :=
  match kf_delay kf with
  | Some d => d
  | None => 0
  end.

Definition g_key_file_get_string_list (kf : GKeyFile) (k : ListKey)
    : option (list string) :=
  match k with
  | G_KEY_FILE_DESKTOP_KEY_ONLY_SHOW_IN => kf_only_show_in kf
  | G_KEY_FILE_DESKTOP_KEY_NOT_SHOW_IN => kf_not_show_in kf
  end.

Definition gsp_key_file_set_boolean (kf : GKeyFile) (k : BoolKey) (v : bool)
    : GKeyFile :=
  match k with
  | G_KEY_FILE_DESKTOP_KEY_HIDDEN =>
      {| kf_hidden := Some v; kf_nodisplay := kf_nodisplay kf;
         kf_name := kf_name kf; kf_comment := kf_comment kf;
         kf_exec := kf_exec kf; kf_icon := kf_icon kf; kf_delay := kf_delay kf;
         kf_only_show_in := kf_only_show_in kf;
         kf_not_show_in := kf_not_show_in kf; kf_other := kf_other kf |}
  | G_KEY_FILE_DESKTOP_KEY_NO_DISPLAY =>
      {| kf_hidden := kf_hidden kf; kf_nodisplay := Some v;
         kf_name := kf_name kf; kf_comment := kf_comment kf;
         kf_exec := kf_exec kf; kf_icon := kf_icon kf; kf_delay := kf_delay kf;
         kf_only_show_in := kf_only_show_in kf;
         kf_not_show_in := kf_not_show_in kf; kf_other := kf_other kf |}
  end.

(** Setting a [NULL] string is refused by GLib and leaves the document
    as it is. *)
Definition gsp_key_file_set_string (kf : GKeyFile) (k : StringKey)
    (v : option string) : GKeyFile :=
  match v with
  | None => kf
  | Some _ =>
      {| kf_hidden := kf_hidden kf; kf_nodisplay := kf_nodisplay kf;
         kf_name := match k with G_KEY_FILE_DESKTOP_KEY_NAME => v | _ => kf_name kf end;
         kf_comment := match k with G_KEY_FILE_DESKTOP_KEY_COMMENT => v | _ => kf_comment kf end;
         kf_exec := match k with G_KEY_FILE_DESKTOP_KEY_EXEC => v | _ => kf_exec kf end;
         kf_icon := match k with G_KEY_FILE_DESKTOP_KEY_ICON => v | _ => kf_icon kf end;
         kf_delay := kf_delay kf; kf_only_show_in := kf_only_show_in kf;
         kf_not_show_in := kf_not_show_in kf; kf_other := kf_other kf |}
  end.

Definition gsp_key_file_set_locale_string := gsp_key_file_set_string.

Definition gsp_key_file_ensure_C_key (kf : GKeyFile) (k : StringKey)
    : GKeyFile := kf.

Definition gsp_key_file_set_delay (kf : GKeyFile) (d : Z) : GKeyFile :=
  {| kf_hidden := kf_hidden kf; kf_nodisplay := kf_nodisplay kf;
     kf_name := kf_name kf; kf_comment := kf_comment kf;
     kf_exec := kf_exec kf; kf_icon := kf_icon kf; kf_delay := Some d;
     kf_only_show_in := kf_only_show_in kf;
     kf_not_show_in := kf_not_show_in kf; kf_other := kf_other kf |}.

(** The fresh document with the default structure. *)
Definition gsp_key_file_populate (kf : GKeyFile) : GKeyFile :=
  {| kf_hidden := kf_hidden kf; kf_nodisplay := kf_nodisplay kf;
     kf_name := kf_name kf; kf_comment := kf_comment kf;
     kf_exec := kf_exec kf; kf_icon := kf_icon kf; kf_delay := kf_delay kf;
     kf_only_show_in := kf_only_show_in kf;
     kf_not_show_in := kf_not_show_in kf;
     kf_other := ("Type", "Application") :: kf_other kf |}.

(** ** The environment of an entry: files, directories, timers, signals *)

Inductive FileData :=
| Unparsable
| Desktop (kf : GKeyFile).

Inductive Signal := CHANGED | REMOVED.

(** [files] maps a path to what is stored there; [denied] lists the paths
    a write fails on; [dirs] is the manager's list of autostart
    directories with their index in the XDG search order; [sources] are
    the live GLib event sources and [next_source] the next identifier
    GLib hands out (never 0); [signals] logs the emissions, newest first,
    with the base name of the emitting entry. *)
Record Env := {
  files : gmap string FileData;
  denied : list string;
  dirs : list (Z * string);
  next_source : positive;
  sources : list positive;
  signals : list (Signal * option string)
}.

Definition set_files (v : gmap string FileData) (e : Env) : Env :=
  {| files := v; denied := denied e; dirs := dirs e;
     next_source := next_source e; sources := sources e;
     signals := signals e |}.

Definition g_file_test_exists (e : Env) (p : option string) : bool :=
  match p with
  | Some q => bool_decide (is_Some (files e !! q))
  | None => false
  end.

(** [g_remove]: the callers ignore its result; an existing file goes. *)
Definition g_remove (e : Env) (p : option string) : Env :=
  match p with
  | Some q => set_files (delete q (files e)) e
  | None => e
  end.

Definition g_key_file_load_from_file (e : Env) (p : option string)
    : option GKeyFile :=
  match p with
  | Some q =>
      match files e !! q with
      | Some (Desktop kf) => Some kf
      | _ => None
      end
  | None => None
  end.

Definition write_denied (e : Env) (q : string) : bool :=
  existsb (String.eqb q) (denied e).

(** [g_key_file_save_to_file]: [None] when the write fails. *)
Definition g_key_file_save_to_file (e : Env) (kf : GKeyFile)
    (p : option string) : option Env :=
  match p with
  | Some q =>
      if write_denied e q then None
      else Some (set_files (<[q := Desktop kf]> (files e)) e)
  | None => None
  end.

(** Modelled from the spec: [gsp_app_manager_get_dir] of
    gsp-app-manager.c (not among the sources) is the registry's
    directory-ordinal-to-path lookup. *)
Fixpoint gsp_app_manager_get_dir (ds : list (Z * string)) (index : Z)
    : option string :=
  match ds with
  | nil => None
  | (i, d) :: rest =>
      if Z.eqb i index then Some d else gsp_app_manager_get_dir rest index
  end.

Definition g_timeout_add_seconds (e : Env) (interval : Z) : positive * Env :=
  (next_source e,
   {| files := files e; denied := denied e; dirs := dirs e;
      next_source := Pos.succ (next_source e);
      sources := next_source e :: sources e; signals := signals e |}).

Definition g_source_remove (e : Env) (tag : Z) : Env :=
  {| files := files e; denied := denied e; dirs := dirs e;
     next_source := next_source e;
     sources := List.filter (fun s => negb (Z.eqb (Z.pos s) tag)) (sources e);
     signals := signals e |}.

Definition g_signal_emit (e : Env) (who : option string) (s : Signal) : Env :=
  {| files := files e; denied := denied e; dirs := dirs e;
     next_source := next_source e; sources := sources e;
     signals := (s, who) :: signals e |}.

(** ** The entry *)

Inductive GIcon :=
| g_file_icon_new (path : string)
| g_themed_icon_new (iconname : string).

(** gsp-app.c, lines 50-80. *)
Record GspAppPrivate := {
  basename : option string;
  path : option string;
  hidden : bool;
  nodisplay : bool;
  name : option string;
  exec : option string;
  comment : option string;
  icon : option string;
  delay : Z;
  gicon : option GIcon;
  description : option string;
  xdg_position : Z;
  xdg_system_position : Z;
  save_timeout : Z;
  save_mask : Z;
  old_system_path : option string;
  skip_next_monitor_event : bool
}.

Definition set_basename (v : option string) (p : GspAppPrivate) : GspAppPrivate :=
  {| basename := v; path := path p; hidden := hidden p; nodisplay := nodisplay p;
     name := name p; exec := exec p; comment := comment p; icon := icon p; delay
     := delay p; gicon := gicon p; description := description p; xdg_position :=
     xdg_position p; xdg_system_position := xdg_system_position p; save_timeout
     := save_timeout p; save_mask := save_mask p; old_system_path :=
     old_system_path p; skip_next_monitor_event := skip_next_monitor_event p |}.

Definition set_path (v : option string) (p : GspAppPrivate) : GspAppPrivate :=
  {| basename := basename p; path := v; hidden := hidden p; nodisplay :=
     nodisplay p; name := name p; exec := exec p; comment := comment p; icon :=
     icon p; delay := delay p; gicon := gicon p; description := description p;
     xdg_position := xdg_position p; xdg_system_position := xdg_system_position
     p; save_timeout := save_timeout p; save_mask := save_mask p; old_system_path
     := old_system_path p; skip_next_monitor_event := skip_next_monitor_event p |}.

Definition set_hidden (v : bool) (p : GspAppPrivate) : GspAppPrivate :=
  {| basename := basename p; path := path p; hidden := v; nodisplay := nodisplay
     p; name := name p; exec := exec p; comment := comment p; icon := icon p;
     delay := delay p; gicon := gicon p; description := description p;
     xdg_position := xdg_position p; xdg_system_position := xdg_system_position
     p; save_timeout := save_timeout p; save_mask := save_mask p; old_system_path
     := old_system_path p; skip_next_monitor_event := skip_next_monitor_event p |}.

Definition set_nodisplay (v : bool) (p : GspAppPrivate) : GspAppPrivate :=
  {| basename := basename p; path := path p; hidden := hidden p; nodisplay := v;
     name := name p; exec := exec p; comment := comment p; icon := icon p; delay
     := delay p; gicon := gicon p; description := description p; xdg_position :=
     xdg_position p; xdg_system_position := xdg_system_position p; save_timeout
     := save_timeout p; save_mask := save_mask p; old_system_path :=
     old_system_path p; skip_next_monitor_event := skip_next_monitor_event p |}.

Definition set_name (v : option string) (p : GspAppPrivate) : GspAppPrivate :=
  {| basename := basename p; path := path p; hidden := hidden p; nodisplay :=
     nodisplay p; name := v; exec := exec p; comment := comment p; icon := icon
     p; delay := delay p; gicon := gicon p; description := description p;
     xdg_position := xdg_position p; xdg_system_position := xdg_system_position
     p; save_timeout := save_timeout p; save_mask := save_mask p; old_system_path
     := old_system_path p; skip_next_monitor_event := skip_next_monitor_event p |}.

Definition set_exec (v : option string) (p : GspAppPrivate) : GspAppPrivate :=
  {| basename := basename p; path := path p; hidden := hidden p; nodisplay :=
     nodisplay p; name := name p; exec := v; comment := comment p; icon := icon
     p; delay := delay p; gicon := gicon p; description := description p;
     xdg_position := xdg_position p; xdg_system_position := xdg_system_position
     p; save_timeout := save_timeout p; save_mask := save_mask p; old_system_path
     := old_system_path p; skip_next_monitor_event := skip_next_monitor_event p |}.

Definition set_comment (v : option string) (p : GspAppPrivate) : GspAppPrivate :=
  {| basename := basename p; path := path p; hidden := hidden p; nodisplay :=
     nodisplay p; name := name p; exec := exec p; comment := v; icon := icon p;
     delay := delay p; gicon := gicon p; description := description p;
     xdg_position := xdg_position p; xdg_system_position := xdg_system_position
     p; save_timeout := save_timeout p; save_mask := save_mask p; old_system_path
     := old_system_path p; skip_next_monitor_event := skip_next_monitor_event p |}.

Definition set_icon (v : option string) (p : GspAppPrivate) : GspAppPrivate :=
  {| basename := basename p; path := path p; hidden := hidden p; nodisplay :=
     nodisplay p; name := name p; exec := exec p; comment := comment p; icon :=
     v; delay := delay p; gicon := gicon p; description := description p;
     xdg_position := xdg_position p; xdg_system_position := xdg_system_position
     p; save_timeout := save_timeout p; save_mask := save_mask p; old_system_path
     := old_system_path p; skip_next_monitor_event := skip_next_monitor_event p |}.

Definition set_delay (v : Z) (p : GspAppPrivate) : GspAppPrivate :=
  {| basename := basename p; path := path p; hidden := hidden p; nodisplay :=
     nodisplay p; name := name p; exec := exec p; comment := comment p; icon :=
     icon p; delay := v; gicon := gicon p; description := description p;
     xdg_position := xdg_position p; xdg_system_position := xdg_system_position
     p; save_timeout := save_timeout p; save_mask := save_mask p; old_system_path
     := old_system_path p; skip_next_monitor_event := skip_next_monitor_event p |}.

Definition set_gicon (v : option GIcon) (p : GspAppPrivate) : GspAppPrivate :=
  {| basename := basename p; path := path p; hidden := hidden p; nodisplay :=
     nodisplay p; name := name p; exec := exec p; comment := comment p; icon :=
     icon p; delay := delay p; gicon := v; description := description p;
     xdg_position := xdg_position p; xdg_system_position := xdg_system_position
     p; save_timeout := save_timeout p; save_mask := save_mask p; old_system_path
     := old_system_path p; skip_next_monitor_event := skip_next_monitor_event p |}.

Definition set_description (v : option string) (p : GspAppPrivate) : GspAppPrivate :=
  {| basename := basename p; path := path p; hidden := hidden p; nodisplay :=
     nodisplay p; name := name p; exec := exec p; comment := comment p; icon :=
     icon p; delay := delay p; gicon := gicon p; description := v; xdg_position
     := xdg_position p; xdg_system_position := xdg_system_position p;
     save_timeout := save_timeout p; save_mask := save_mask p; old_system_path :=
     old_system_path p; skip_next_monitor_event := skip_next_monitor_event p |}.

Definition set_xdg_position (v : Z) (p : GspAppPrivate) : GspAppPrivate :=
  {| basename := basename p; path := path p; hidden := hidden p; nodisplay :=
     nodisplay p; name := name p; exec := exec p; comment := comment p; icon :=
     icon p; delay := delay p; gicon := gicon p; description := description p;
     xdg_position := v; xdg_system_position := xdg_system_position p;
     save_timeout := save_timeout p; save_mask := save_mask p; old_system_path :=
     old_system_path p; skip_next_monitor_event := skip_next_monitor_event p |}.

Definition set_xdg_system_position (v : Z) (p : GspAppPrivate) : GspAppPrivate :=
  {| basename := basename p; path := path p; hidden := hidden p; nodisplay :=
     nodisplay p; name := name p; exec := exec p; comment := comment p; icon :=
     icon p; delay := delay p; gicon := gicon p; description := description p;
     xdg_position := xdg_position p; xdg_system_position := v; save_timeout :=
     save_timeout p; save_mask := save_mask p; old_system_path := old_system_path
     p; skip_next_monitor_event := skip_next_monitor_event p |}.

Definition set_save_timeout (v : Z) (p : GspAppPrivate) : GspAppPrivate :=
  {| basename := basename p; path := path p; hidden := hidden p; nodisplay :=
     nodisplay p; name := name p; exec := exec p; comment := comment p; icon :=
     icon p; delay := delay p; gicon := gicon p; description := description p;
     xdg_position := xdg_position p; xdg_system_position := xdg_system_position
     p; save_timeout := v; save_mask := save_mask p; old_system_path :=
     old_system_path p; skip_next_monitor_event := skip_next_monitor_event p |}.

Definition set_save_mask (v : Z) (p : GspAppPrivate) : GspAppPrivate :=
  {| basename := basename p; path := path p; hidden := hidden p; nodisplay :=
     nodisplay p; name := name p; exec := exec p; comment := comment p; icon :=
     icon p; delay := delay p; gicon := gicon p; description := description p;
     xdg_position := xdg_position p; xdg_system_position := xdg_system_position
     p; save_timeout := save_timeout p; save_mask := v; old_system_path :=
     old_system_path p; skip_next_monitor_event := skip_next_monitor_event p |}.

Definition set_old_system_path (v : option string) (p : GspAppPrivate) : GspAppPrivate :=
  {| basename := basename p; path := path p; hidden := hidden p; nodisplay :=
     nodisplay p; name := name p; exec := exec p; comment := comment p; icon :=
     icon p; delay := delay p; gicon := gicon p; description := description p;
     xdg_position := xdg_position p; xdg_system_position := xdg_system_position
     p; save_timeout := save_timeout p; save_mask := save_mask p; old_system_path
     := v; skip_next_monitor_event := skip_next_monitor_event p |}.

Definition set_skip_next_monitor_event (v : bool) (p : GspAppPrivate) : GspAppPrivate :=
  {| basename := basename p; path := path p; hidden := hidden p; nodisplay :=
     nodisplay p; name := name p; exec := exec p; comment := comment p; icon :=
     icon p; delay := delay p; gicon := gicon p; description := description p;
     xdg_position := xdg_position p; xdg_system_position := xdg_system_position
     p; save_timeout := save_timeout p; save_mask := save_mask p; old_system_path
     := old_system_path p; skip_next_monitor_event := v |}.

(** [gsp_app_init], lines 125-133: the zeroed structure with both
    positions at [G_MAXUINT]. *)
Definition gsp_app_init : GspAppPrivate :=
  {| basename := None; path := None; hidden := false; nodisplay := false;
     name := None; exec := None; comment := None; icon := None; delay := 0;
     gicon := None; description := None; xdg_position := G_MAXUINT;
     xdg_system_position := G_MAXUINT; save_timeout := 0; save_mask := 0;
     old_system_path := None; skip_next_monitor_event := false |}.

(** [mask & bit] read as a C condition. *)
Definition mask_has (mask bit : Z) : bool := negb (Z.eqb (Z.land mask bit) 0).

(** What gsp-app.c takes from outside the repository's sources under
    study: the user's configuration directory, [gsm_util_text_is_blank]
    of gsm-util.c, GLib's shell tokenizer (the first word and the rest of
    the vector on success), the escaped markup [<b>%s</b>\n%s] of two
    strings, and gettext. *)
Record Externals := {
  g_get_user_config_dir : string;
  gsm_util_text_is_blank : option string -> bool;
  g_shell_parse_argv : string -> option (string * list string);
  g_markup_printf_escaped : option string -> option string -> string;
  gettext : string -> string
}.

(** Which [return] of [_gsp_app_save] was reached (the C function
    returns [FALSE] at each of them): line 345 after removing the user
    file, or line 401 after a write that succeeded or failed. *)
Inductive SaveOutcome := ShadowRemoved | Written | WriteFailed.

(** Which exit of [gsp_app_new] was reached: the three [return NULL] of
    lines 737, 750 and 759, the [return app] of line 833, or the
    [g_assert] of line 818 stopping the program. *)
Inductive NewOutcome := Suppressed | Duplicate | Rejected | Returned | AssertFailed.

Section Entry.

Variable X : Externals.

(** The path of the entry's file in the user autostart directory. *)
Definition user_autostart_file (b : option string) : string :=
  g_build_filename [Some (g_get_user_config_dir X); Some "autostart"; b].

Definition _gsp_app_emit_changed (e : Env) (p : GspAppPrivate) : Env :=
  g_signal_emit e (basename p) CHANGED.

Definition _gsp_app_emit_removed (e : Env) (p : GspAppPrivate) : Env :=
  g_signal_emit e (basename p) REMOVED.

(** Lines 187-211. *)
Definition _gsp_app_update_description (p : GspAppPrivate) : GspAppPrivate :=
  let primary :=
    if negb (gsm_util_text_is_blank X (name p)) then name p
    else if negb (gsm_util_text_is_blank X (exec p)) then exec p
    else Some (gettext X "No name") in
  let secondary :=
    if negb (gsm_util_text_is_blank X (comment p)) then comment p
    else Some (gettext X "No description") in
  set_description (Some (g_markup_printf_escaped X primary secondary)) p.

(** Lines 226-307: [Some path] is [TRUE] with [*system_path = path]. *)
Definition _gsp_app_user_equal_system (e : Env) (p : GspAppPrivate)
    : option string :=
  match gsp_app_manager_get_dir (dirs e) (xdg_system_position p) with
  | None => None
  | Some system_dir =>
      let path' := g_build_filename [Some system_dir; basename p] in
      match g_key_file_load_from_file e (Some path') with
      | None => None
      | Some keyfile =>
          if negb (Bool.eqb (gsp_key_file_get_boolean keyfile
                               G_KEY_FILE_DESKTOP_KEY_HIDDEN false) (hidden p))
          then None
          else if negb (_gsp_str_equal
                          (gsp_key_file_get_locale_string keyfile
                             G_KEY_FILE_DESKTOP_KEY_NAME) (name p))
          then None
          else if negb (_gsp_str_equal
                          (gsp_key_file_get_locale_string keyfile
                             G_KEY_FILE_DESKTOP_KEY_COMMENT) (comment p))
          then None
          else if negb (_gsp_str_equal
                          (gsp_key_file_get_string keyfile
                             G_KEY_FILE_DESKTOP_KEY_EXEC) (exec p))
          then None
          else if negb (_gsp_str_equal
                          (gsp_key_file_get_locale_string keyfile
                             G_KEY_FILE_DESKTOP_KEY_ICON) (icon p))
          then None
          else if negb (Z.eqb (gsp_key_file_get_delay keyfile) (delay p))
          then None
          else Some path'
      end
  end.

(** Lines 309-319. *)
Definition _gsp_app_save_done_success (p : GspAppPrivate) : GspAppPrivate :=
  set_old_system_path None (set_save_mask 0 p).

(** The document [_gsp_app_save] starts from, lines 348-351. *)
Definition save_use_path (p : GspAppPrivate) : option string :=
  match old_system_path p with
  | Some o => Some o
  | None => path p
  end.

(** Lines 353-388: load the base document (a fresh populated one when
    loading reports an error) and apply the fields named by the mask. *)
Definition save_document (e : Env) (p : GspAppPrivate) : GKeyFile :=
  let keyfile :=
    match save_use_path p with
    | None => g_key_file_new
    | Some use_path =>
        match g_key_file_load_from_file e (Some use_path) with
        | Some kf => kf
        | None => gsp_key_file_populate g_key_file_new
        end
    end in
  let keyfile :=
    if mask_has (save_mask p) GSP_ASP_SAVE_MASK_HIDDEN
    then gsp_key_file_set_boolean keyfile G_KEY_FILE_DESKTOP_KEY_HIDDEN (hidden p)
    else keyfile in
  let keyfile :=
    if mask_has (save_mask p) GSP_ASP_SAVE_MASK_NAME
    then gsp_key_file_ensure_C_key
           (gsp_key_file_set_locale_string keyfile
              G_KEY_FILE_DESKTOP_KEY_NAME (name p))
           G_KEY_FILE_DESKTOP_KEY_NAME
    else keyfile in
  let keyfile :=
    if mask_has (save_mask p) GSP_ASP_SAVE_MASK_COMMENT
    then gsp_key_file_ensure_C_key
           (gsp_key_file_set_locale_string keyfile
              G_KEY_FILE_DESKTOP_KEY_COMMENT (comment p))
           G_KEY_FILE_DESKTOP_KEY_COMMENT
    else keyfile in
  let keyfile :=
    if mask_has (save_mask p) GSP_ASP_SAVE_MASK_EXEC
    then gsp_key_file_set_string keyfile G_KEY_FILE_DESKTOP_KEY_EXEC (exec p)
    else keyfile in
  if mask_has (save_mask p) GSP_ASP_SAVE_MASK_DELAY
  then gsp_key_file_set_delay keyfile (delay p)
  else keyfile.

(** Lines 321-402.  Directories are not modelled, so
    [_gsp_ensure_user_autostart_dir] has no effect here. *)
Definition _gsp_app_save (e : Env) (p : GspAppPrivate)
    : SaveOutcome * Env * GspAppPrivate :=
  match _gsp_app_user_equal_system e p with
  | Some use_path =>
      let e :=
        if g_file_test_exists e (path p) then g_remove e (path p) else e in
      let p := set_path (Some use_path) p in
      let p := set_xdg_position (xdg_system_position p) p in
      let p := _gsp_app_save_done_success p in
      (ShadowRemoved, e, p)
  | None =>
      let keyfile := save_document e p in
      match g_key_file_save_to_file e keyfile (path p) with
      | Some e' =>
          let p := set_skip_next_monitor_event true p in
          let p := _gsp_app_save_done_success p in
          (Written, e', set_save_timeout 0 p)
      | None =>
          (WriteFailed, e, set_save_timeout 0 p)
      end
  end.

(** The main loop running the timeout armed by [_gsp_app_queue_save]:
    the callback returns [FALSE], so GLib destroys the source. *)
Definition timeout_dispatch (e : Env) (p : GspAppPrivate)
    : SaveOutcome * Env * GspAppPrivate :=
  let '(o, e', p') := _gsp_app_save e p in
  (o, g_source_remove e' (save_timeout p), p').

(** Lines 404-431. *)
Definition _gsp_app_queue_save (e : Env) (p : GspAppPrivate)
    : Env * GspAppPrivate :=
  let '(e, p) :=
    if negb (Z.eqb (save_timeout p) 0)
    then (g_source_remove e (save_timeout p), set_save_timeout 0 p)
    else (e, p) in
  let p :=
    if negb (Z.eqb (xdg_position p) 0) then
      let p := set_xdg_position 0 p in
      let p :=
        if is_null (old_system_path p)
        then set_old_system_path (path p) p
        else p in
      set_path (Some (user_autostart_file (basename p))) p
    else p in
  let '(id, e) := g_timeout_add_seconds e GSP_APP_SAVE_DELAY in
  (e, set_save_timeout (Z.pos id) p).

(** [gsp_app_dispose], lines 135-155. *)
Definition gsp_app_dispose (e : Env) (p : GspAppPrivate)
    : Env * GspAppPrivate :=
  if negb (Z.eqb (save_timeout p) 0) then
    let e := g_source_remove e (save_timeout p) in
    let p := set_save_timeout 0 p in
    let '(_, e, p) := _gsp_app_save e p in
    (e, p)
  else (e, p).

(** Lines 467-483. *)
Definition gsp_app_set_hidden (e : Env) (p : GspAppPrivate) (hidden' : bool)
    : Env * GspAppPrivate :=
  if Bool.eqb hidden' (hidden p) then (e, p)
  else
    let p := set_hidden hidden' p in
    let p := set_save_mask (Z.lor (save_mask p) GSP_ASP_SAVE_MASK_HIDDEN) p in
    let '(e, p) := _gsp_app_queue_save e p in
    (_gsp_app_emit_changed e p, p).

(** Lines 568-576. *)
Definition gsp_app_set_xdg_system_position (p : GspAppPrivate) (position : Z)
    : GspAppPrivate :=
  set_xdg_system_position position p.

(** Lines 592-637. *)
Definition gsp_app_update (e : Env) (p : GspAppPrivate)
    (name' comment' exec' : option string) (delay' : Z)
    : Env * GspAppPrivate :=
  let changed := false in
  let '(changed, p) :=
    if negb (_gsp_str_equal name' (name p))
    then (true,
          set_save_mask (Z.lor (save_mask p) GSP_ASP_SAVE_MASK_NAME)
            (set_name name' p))
    else (changed, p) in
  let '(changed, p) :=
    if negb (_gsp_str_equal comment' (comment p))
    then (true,
          set_save_mask (Z.lor (save_mask p) GSP_ASP_SAVE_MASK_COMMENT)
            (set_comment comment' p))
    else (changed, p) in
  let p := if changed then _gsp_app_update_description p else p in
  let '(changed, p) :=
    if negb (_gsp_str_equal exec' (exec p))
    then (true,
          set_save_mask (Z.lor (save_mask p) GSP_ASP_SAVE_MASK_EXEC)
            (set_exec exec' p))
    else (changed, p) in
  let '(changed, p) :=
    if negb (Z.eqb delay' (delay p))
    then (true,
          set_save_mask (Z.lor (save_mask p) GSP_ASP_SAVE_MASK_DELAY)
            (set_delay delay' p))
    else (changed, p) in
  if changed then
    let '(e, p) := _gsp_app_queue_save e p in
    (_gsp_app_emit_changed e p, p)
  else (e, p).

(** Lines 639-670. *)
Definition gsp_app_delete (e : Env) (p : GspAppPrivate) : Env * GspAppPrivate :=
  if Z.eqb (xdg_position p) 0 && Z.eqb (xdg_system_position p) G_MAXUINT then
    let '(e, p) :=
      if negb (Z.eqb (save_timeout p) 0)
      then (g_source_remove e (save_timeout p), set_save_timeout 0 p)
      else (e, p) in
    let e :=
      if g_file_test_exists e (path p) then g_remove e (path p) else e in
    let p := set_hidden true p in
    let p := set_save_mask (Z.lor (save_mask p) GSP_ASP_SAVE_MASK_HIDDEN) p in
    (_gsp_app_emit_removed e p, p)
  else
    let p := set_hidden true p in
    let p := set_save_mask (Z.lor (save_mask p) GSP_ASP_SAVE_MASK_HIDDEN) p in
    let '(e, p) := _gsp_app_queue_save e p in
    (_gsp_app_emit_changed e p, p).

(** Lines 688-714. *)
Definition gsp_app_can_launch (keyfile : GKeyFile) : bool :=
  let found_in l := existsb (String.eqb "MATE") l in
  match g_key_file_get_string_list keyfile G_KEY_FILE_DESKTOP_KEY_ONLY_SHOW_IN with
  | Some only_show_in => found_in only_show_in
  | None => true
  end
  &&
  match g_key_file_get_string_list keyfile G_KEY_FILE_DESKTOP_KEY_NOT_SHOW_IN with
  | Some not_show_in => negb (found_in not_show_in)
  | None => true
  end.

(** The body of [gsp_app_new] after the registry lookup, lines 731-833.
    [found] is the private data of the entry the lookup returned ([None]
    when [app == NULL], that is [new]); [basename'] is the base name of
    [path'].  The result carries the exit taken, the environment and the
    private data of the object the function worked on (the one found, or
    the new one when the function returns it). *)
Definition gsp_app_new_body (e : Env) (found : option GspAppPrivate)
    (basename' path' : string) (xdg_position' : Z)
    : NewOutcome * Env * option GspAppPrivate :=
  let early :=
    match found with
    | None => None
    | Some p =>
        if Z.eqb (xdg_position p) xdg_position' && skip_next_monitor_event p
        then Some (Suppressed, e, Some (set_skip_next_monitor_event false p))
        else if Z.ltb (xdg_position p) xdg_position'
                || negb (Z.eqb (save_timeout p) 0)
        then Some (Duplicate, e,
                   Some (set_xdg_system_position
                           (Z.min xdg_position' (xdg_system_position p)) p))
        else None
    end in
  match early with
  | Some r => r
  | None =>
      match g_key_file_load_from_file e (Some path') with
      | None => (Rejected, e, found)
      | Some keyfile =>
          if negb (gsp_app_can_launch keyfile) then (Rejected, e, found)
          else
            let p :=
              match found with
              | None => set_basename (Some basename') gsp_app_init
              | Some p =>
                  set_old_system_path None
                    (set_description None
                       (set_gicon None
                          (set_icon None
                             (set_comment None
                                (set_exec None
                                   (set_name None (set_path None p)))))))
              end in
            let p := set_path (Some path') p in
            let p := set_hidden (gsp_key_file_get_boolean keyfile
                                   G_KEY_FILE_DESKTOP_KEY_HIDDEN false) p in
            let p := set_nodisplay (gsp_key_file_get_boolean keyfile
                                      G_KEY_FILE_DESKTOP_KEY_NO_DISPLAY false) p in
            let p := set_name (gsp_key_file_get_locale_string keyfile
                                 G_KEY_FILE_DESKTOP_KEY_NAME) p in
            let p := set_exec (gsp_key_file_get_string keyfile
                                 G_KEY_FILE_DESKTOP_KEY_EXEC) p in
            let p := set_comment (gsp_key_file_get_locale_string keyfile
                                    G_KEY_FILE_DESKTOP_KEY_COMMENT) p in
            let p := set_delay (gsp_key_file_get_delay keyfile) p in
            let p :=
              if gsm_util_text_is_blank X (name p) then set_name (exec p) p
              else p in
            let p := set_icon (gsp_key_file_get_locale_string keyfile
                                 G_KEY_FILE_DESKTOP_KEY_ICON) p in
            let p :=
              match icon p with
              | Some i =>
                  if g_path_is_absolute i
                  then set_gicon (Some (g_file_icon_new i)) p
                  else set_gicon (Some (g_themed_icon_new i)) p
              | None => set_gicon None p
              end in
            let p := _gsp_app_update_description p in
            if Z.ltb 0 xdg_position'
               && negb (Z.leb xdg_position' (xdg_system_position p))
            then (AssertFailed, e, Some p)
            else
              let p :=
                if Z.ltb 0 xdg_position'
                then set_xdg_system_position xdg_position' p
                else p in
              let p := set_xdg_position xdg_position' p in
              let p := set_save_timeout 0 p in
              let p := set_old_system_path None p in
              let p := set_skip_next_monitor_event false p in
              let e :=
                if is_null found then e else _gsp_app_emit_changed e p in
              (Returned, e, Some p)
      end
  end.

(** The entry part of [gsp_app_create], lines 908-940: the new object
    filled in and its save queued. *)
Definition gsp_app_create_fill (e : Env) (basename' : string)
    (name' comment' exec' : option string) (delay' : Z)
    : Env * GspAppPrivate :=
  let p := gsp_app_init in
  let p := set_basename (Some basename') p in
  let p := set_path (Some (user_autostart_file (basename p))) p in
  let p := set_hidden false p in
  let p := set_nodisplay false p in
  let p :=
    if negb (gsm_util_text_is_blank X name') then set_name name' p
    else set_name exec' p in
  let p := set_exec exec' p in
  let p := set_comment comment' p in
  let p := set_delay delay' p in
  let p := set_icon None p in
  let p := set_gicon None p in
  let p := _gsp_app_update_description p in
  let p := set_xdg_position 0 p in
  let p := set_xdg_system_position G_MAXUINT p in
  let p := set_save_timeout 0 p in
  let p := set_save_mask (Z.lor (save_mask p) GSP_ASP_SAVE_MASK_ALL) p in
  let p := set_old_system_path None p in
  let p := set_skip_next_monitor_event false p in
  _gsp_app_queue_save e p.

(** The entry part of [gsp_app_copy_desktop_file] once the copy is
    loaded, lines 1005-1014. *)
Definition gsp_app_copy_unhide (e : Env) (p : GspAppPrivate)
    : Env * GspAppPrivate :=
  if hidden p then
    let p := set_hidden false p in
    let p := set_save_mask (Z.lor (save_mask p) GSP_ASP_SAVE_MASK_HIDDEN) p in
    _gsp_app_queue_save e p
  else (e, p).

End Entry.

(** ** The registry and the heap of entries

    Modelled from the spec: [GspAppManager] (gsp-app-manager.c, not among
    the sources) is the registry with lookup by file name and [add].  The
    registry holds references, so entries live in [heap] and [apps] lists
    their identifiers, most recently added first. *)

Record World := {
  env : Env;
  heap : gmap nat GspAppPrivate;
  next_obj : nat;
  apps : list nat
}.

Fixpoint find_in (h : gmap nat GspAppPrivate) (l : list nat) (b : string)
    : option (nat * GspAppPrivate) :=
  match l with
  | nil => None
  | a :: rest =>
      match h !! a with
      | Some p =>
          if g_strcmp0_is_zero (Some b) (basename p) then Some (a, p)
          else find_in h rest b
      | None => find_in h rest b
      end
  end.

Definition gsp_app_manager_find_app_with_basename (w : World) (b : string)
    : option (nat * GspAppPrivate) :=
  find_in (heap w) (apps w) b.

Definition set_app (w : World) (e : Env) (a : nat) (p : GspAppPrivate) : World :=
  {| env := e; heap := <[a := p]> (heap w); next_obj := next_obj w;
     apps := apps w |}.

(** [g_object_new] followed by [gsp_app_manager_add]. *)
Definition add_new_app (w : World) (e : Env) (p : GspAppPrivate) : World :=
  {| env := e; heap := <[next_obj w := p]> (heap w);
     next_obj := S (next_obj w); apps := next_obj w :: apps w |}.

(** An entry method run on the object [a] of the heap. *)
Definition run_on (w : World) (a : nat)
    (f : Env -> GspAppPrivate -> Env * GspAppPrivate) : World :=
  match heap w !! a with
  | Some p => let '(e, p') := f (env w) p in set_app w e a p'
  | None => w
  end.

Section Registry.

Variable X : Externals.

(** [gsp_app_new], lines 716-834.  The second component is the pointer
    returned ([None] is [NULL]).  A new object is returned to the caller
    and is not in the registry yet: it is allocated in the heap only. *)
Definition gsp_app_new (w : World) (path' : string) (xdg_position' : Z)
    : NewOutcome * option nat * World :=
  let basename' := g_path_get_basename path' in
  let app := gsp_app_manager_find_app_with_basename w basename' in
  match app with
  | Some (a, p) =>
      match gsp_app_new_body X (env w) (Some p) basename' path' xdg_position' with
      | (r, e, Some p') =>
          (r, match r with Returned => Some a | _ => None end, set_app w e a p')
      | (r, e, None) => (r, None, w)
      end
  | None =>
      match gsp_app_new_body X (env w) None basename' path' xdg_position' with
      | (Returned, e, Some p') =>
          (Returned, Some (next_obj w),
           {| env := e; heap := <[next_obj w := p']> (heap w);
              next_obj := S (next_obj w); apps := apps w |})
      | (r, _, _) => (r, None, w)
      end
  end.


(** The loop of lines 863-872.  [n] bounds the number of iterations; the
    loop itself stops no later than [i = _GSP_FIND_MAX_TRY]. *)
Fixpoint find_free_loop (w : World) (base_path : string) (n : nat) (i : Z)
    (filename basename' : string) : Z * string :=
  match n with
  | O => (i, basename')
  | S n' =>
      if negb (is_null (gsp_app_manager_find_app_with_basename w basename'))
         && g_file_test_exists (env w) (Some filename)
         && Z.ltb i _GSP_FIND_MAX_TRY
      then
        let filename := base_path ++ "-" ++ printf_d i ++ ".desktop" in
        let basename' := g_path_get_basename filename in
        find_free_loop w base_path n' (i + 1) filename basename'
      else (i, basename')
  end.

(** Lines 836-885. *)
Definition _gsp_find_free_basename (w : World) (suggested_basename : string)
    : option string :=
  let base_path :=
    if g_str_has_suffix suggested_basename ".desktop" then
      let basename_no_ext :=
        g_strndup suggested_basename
          (String.length suggested_basename - String.length ".desktop")%nat in
      g_build_filename [Some (g_get_user_config_dir X); Some "autostart";
                        Some basename_no_ext]
    else
      g_build_filename [Some (g_get_user_config_dir X); Some "autostart";
                        Some suggested_basename] in
  let filename := base_path ++ ".desktop" in
  let basename' := g_path_get_basename filename in
  let '(i, basename') :=
    find_free_loop w base_path (Z.to_nat _GSP_FIND_MAX_TRY) 1 filename basename' in
  if Z.eqb i _GSP_FIND_MAX_TRY then None else Some basename'.

(** Lines 887-946. *)
Definition gsp_app_create (w : World) (name' comment' exec' : option string)
    (delay' : Z) : World :=
  if gsm_util_text_is_blank X exec' then w
  else
    match exec' with
    | None => w
    | Some command_line =>
        match g_shell_parse_argv X command_line with
        | None => w
        | Some (argv0, _) =>
            match _gsp_find_free_basename w argv0 with
            | None => w
            | Some basename' =>
                let '(e, p) :=
                  gsp_app_create_fill X (env w) basename' name' comment' exec'
                                      delay' in
                add_new_app w e p
            end
        end
    end.

(** ** The life of one entry

    The operations that can reach an entry, each with the environment it
    runs in.  The boolean beside the entry is a ghost flag: a write of
    this entry failed and no flush has succeeded since. *)

Inductive Op :=
| OpUpdate (name' comment' exec' : option string) (delay' : Z)
| OpSetHidden (hidden' : bool)
| OpDelete
| OpTimeout
| OpDispose
| OpNew (path' : string) (xdg_position' : Z)
| OpReloadAt
| OpSetXdgSystemPosition (position : Z)
| OpCopyUnhide.

Definition failed_after (o : SaveOutcome) : bool :=
  match o with
  | WriteFailed => true
  | ShadowRemoved | Written => false
  end.

(** One operation on the entry [p].  [OpTimeout] is the timer callback
    and needs an armed timer; [OpDispose] is [gsp_app_dispose] with the
    outcome of its flush recorded; [OpNew] is a call of [gsp_app_new]
    whose lookup finds [p] ([None] when the assertion stops the program);
    [OpReloadAt] is the assignment of line 684. *)
Definition step (e : Env) (o : Op) (s : GspAppPrivate * bool)
    : option (GspAppPrivate * bool) :=
  let '(p, failed) := s in
  match o with
  | OpUpdate name' comment' exec' delay' =>
      Some (snd (gsp_app_update X e p name' comment' exec' delay'), failed)
  | OpSetHidden hidden' => Some (snd (gsp_app_set_hidden X e p hidden'), failed)
  | OpDelete => Some (snd (gsp_app_delete X e p), failed)
  | OpTimeout =>
      if Z.eqb (save_timeout p) 0 then None
      else
        let '(o, _, p') := timeout_dispatch e p in Some (p', failed_after o)
  | OpDispose =>
      if Z.eqb (save_timeout p) 0 then Some (p, failed)
      else
        let '(o, _, p') :=
          _gsp_app_save (g_source_remove e (save_timeout p))
                        (set_save_timeout 0 p) in
        Some (p', failed_after o)
  | OpNew path' xdg_position' =>
      match gsp_app_new_body X e (Some p) (g_path_get_basename path') path'
                             xdg_position' with
      | (AssertFailed, _, _) => None
      | (_, _, Some p') => Some (p', failed)
      | (_, _, None) => None
      end
  | OpReloadAt => Some (set_xdg_position G_MAXUINT p, failed)
  | OpSetXdgSystemPosition position =>
      Some (gsp_app_set_xdg_system_position p position, failed)
  | OpCopyUnhide => Some (snd (gsp_app_copy_unhide X e p), failed)
  end.

(** The two operations whose effect on the mask and the timer differs
    from the others: deleting an entry that exists in the user directory
    only (lines 645-660), and the timer callback leaving through the
    shadow-removal exit (line 345). *)
Definition sets_mask_apart (e : Env) (o : Op) (p : GspAppPrivate) : bool :=
  match o with
  | OpDelete => Z.eqb (xdg_position p) 0 && Z.eqb (xdg_system_position p) G_MAXUINT
  | OpTimeout => negb (is_null (_gsp_app_user_equal_system e p))
  | _ => false
  end.

(** The states an entry goes through: it starts as a created entry or as
    a newly loaded one, and [allowed] says which operations are followed. *)
Inductive reach (allowed : Env -> Op -> GspAppPrivate -> bool)
    : GspAppPrivate -> bool -> Prop :=
| reach_create e basename' name' comment' exec' delay' :
    reach allowed
      (snd (gsp_app_create_fill X e basename' name' comment' exec' delay'))
      false
| reach_new e path' xdg_position' e' p :
    gsp_app_new_body X e None (g_path_get_basename path') path' xdg_position'
      = (Returned, e', Some p) ->
    reach allowed p false
| reach_step e o p failed p' failed' :
    reach allowed p failed ->
    allowed e o p = true ->
    step e o (p, failed) = Some (p', failed') ->
    reach allowed p' failed'.

Definition every_op (e : Env) (o : Op) (p : GspAppPrivate) : bool := true.

Definition ordinary_op (e : Env) (o : Op) (p : GspAppPrivate) : bool :=
  negb (sets_mask_apart e o p).

(** The dirty mask is non-empty exactly when a save is armed or a failed
    write is waiting for its retry. *)
Definition dirty_iff_pending (p : GspAppPrivate) (failed : bool) : Prop :=
  save_mask p <> 0 <-> (save_timeout p <> 0 \/ failed = true).

End Registry.

(** ** Copying a desktop file into the user directory *)

(** [NULL] and the empty string are the same value to [_gsp_str_equal]. *)
Definition blank_to_null (s : option string) : option string :=
  match s with
  | Some EmptyString => None
  | _ => s
  end.


Definition gsp_app_manager_add (w : World) (a : nat) : World :=
  {| env := env w; heap := heap w; next_obj := next_obj w;
     apps := a :: apps w |}.

Definition set_env (w : World) (e : Env) : World :=
  {| env := e; heap := heap w; next_obj := next_obj w; apps := apps w |}.

(** [g_file_copy] with [G_FILE_COPY_NONE]: the source must exist, the
    destination must not, and the destination must be writable; the
    destination then holds what the source holds. *)
Definition g_file_copy (e : Env) (src dst : string) : option Env :=
  match files e !! src with
  | None => None
  | Some d =>
      if g_file_test_exists e (Some dst) then None
      else if write_denied e dst then None
      else Some (set_files (<[dst := d]> (files e)) e)
  end.

(** What GIO makes of a URI: the path of the file it names in [files],
    and the base name of a file ([None] when it has none). *)
Record Gio := {
  g_file_new_for_uri : string -> string;
  g_file_get_basename : string -> option string
}.

Section Copy.

Variable X : Externals.
Variable G : Gio.

(** Lines 948-1022. *)
Definition gsp_app_copy_desktop_file (w : World) (uri : string)
    : bool * World :=
  let src_file := g_file_new_for_uri G uri in
  match g_file_get_basename G src_file with
  | None => (false, w)
  | Some src_basename =>
      match _gsp_find_free_basename X w src_basename with
      | None => (false, w)
      | Some dst_basename =>
          let dst_path :=
            g_build_filename [Some (g_get_user_config_dir X);
                              Some "autostart"; Some dst_basename] in
          match g_file_copy (env w) src_file dst_path with
          | None => (false, w)
          | Some e =>
              match gsp_app_new X (set_env w e) dst_path 0 with
              | (_, None, w) =>
                  (false, set_env w (g_remove (env w) (Some dst_path)))
              | (_, Some app, w) =>
                  let w := run_on w app (gsp_app_copy_unhide X) in
                  (true, gsp_app_manager_add w app)
              end
          end
      end
  end.

(** The candidates [_gsp_find_free_basename] goes through for a base
    path: the plain name first, then the numbered ones. *)
Definition candidate (base_path : string) (k : Z) : string :=
  if Z.eqb k 0 then base_path ++ ".desktop"
  else base_path ++ "-" ++ printf_d k ++ ".desktop".

(** The condition under which the loop of lines 863-864 moves on from a
    candidate. *)
Definition candidate_taken (w : World) (filename : string) : bool :=
  negb (is_null (gsp_app_manager_find_app_with_basename w
                   (g_path_get_basename filename)))
  && g_file_test_exists (env w) (Some filename).

(** The base path built from a suggestion, lines 843-854. *)
Definition free_base_path (suggested_basename : string) : string :=
  if g_str_has_suffix suggested_basename ".desktop" then
    g_build_filename [Some (g_get_user_config_dir X); Some "autostart";
                      Some (g_strndup suggested_basename
                              (String.length suggested_basename
                               - String.length ".desktop")%nat)]
  else
    g_build_filename [Some (g_get_user_config_dir X); Some "autostart";
                      Some suggested_basename].

End Copy.

(** ** A concrete platform and sample states

    Used to run the model on explicit inputs: a home directory, blank
    meaning [NULL] or spaces only, words split at spaces, markup with no
    character to escape, and the untranslated C locale. *)

Fixpoint all_spaces (s : string) : bool :=
  match s with
  | EmptyString => true
  | String c s' => Ascii.eqb c " "%char && all_spaces s'
  end.

Fixpoint split_words (cur : string) (s : string) : list string :=
  match s with
  | EmptyString =>
      if String.eqb cur EmptyString then nil else [cur]
  | String c s' =>
      if Ascii.eqb c " "%char
      then (if String.eqb cur EmptyString then split_words EmptyString s'
            else cur :: split_words EmptyString s')
      else split_words (cur ++ String c EmptyString) s'
  end.

Definition or_null (s : option string) : string :=
  match s with
  | Some x => x
  | None => "(null)"
  end.

Definition posix : Externals :=
  {| g_get_user_config_dir := "/home/u/.config";
     gsm_util_text_is_blank :=
       fun s => match s with None => true | Some x => all_spaces x end;
     g_shell_parse_argv :=
       fun s => match split_words EmptyString s with
                | nil => None
                | a :: rest => Some (a, rest)
                end;
     g_markup_printf_escaped :=
       fun a b => "<b>" ++ or_null a ++ "</b>" ++ String (ascii_of_nat 10) (or_null b);
     gettext := fun s => s |}.

Definition foo_system_file : GKeyFile :=
  {| kf_hidden := None; kf_nodisplay := None; kf_name := Some "Foo";
     kf_comment := Some "Runs foo"; kf_exec := Some "foo --daemon";
     kf_icon := None; kf_delay := None; kf_only_show_in := None;
     kf_not_show_in := None; kf_other := nil |}.

(** One system directory at index 1 holding foo.desktop; the user
    directory is empty and writable. *)
Definition sample_env : Env :=
  {| files := {[ "/etc/xdg/autostart/foo.desktop" := Desktop foo_system_file ]};
     denied := nil;
     dirs := [(0, "/home/u/.config/autostart"); (1, "/etc/xdg/autostart")];
     next_source := 1%positive; sources := nil; signals := nil |}.

(** The same with the user's copy of foo.desktop not writable. *)
Definition readonly_env : Env :=
  {| files := files sample_env;
     denied := ["/home/u/.config/autostart/foo.desktop"];
     dirs := dirs sample_env;
     next_source := 1%positive; sources := nil; signals := nil |}.

Definition empty_world (e : Env) : World :=
  {| env := e; heap := ∅; next_obj := 0%nat; apps := nil |}.

(** The directory scan loads foo.desktop from the system directory and
    the manager registers it. *)
Definition loaded_world (e : Env) : World :=
  match gsp_app_new posix (empty_world e) "/etc/xdg/autostart/foo.desktop" 1 with
  | (_, Some a, w) =>
      {| env := env w; heap := heap w; next_obj := next_obj w;
         apps := a :: apps w |}
  | (_, None, w) => w
  end.

(** The user hides the entry and shows it again before the timer fires:
    the save is armed and the entry is back to what the system file says. *)
Definition hidden_then_shown : World :=
  let w := run_on (loaded_world sample_env) 0%nat
             (fun e p => gsp_app_set_hidden posix e p true) in
  run_on w 0%nat (fun e p => gsp_app_set_hidden posix e p false).

(** The user hides the entry; the save is armed. *)
Definition hidden_armed (e : Env) : World :=
  run_on (loaded_world e) 0%nat
    (fun e p => gsp_app_set_hidden posix e p true).

Definition timer_fires (e : Env) (p : GspAppPrivate) : Env * GspAppPrivate :=
  let '(_, e', p') := timeout_dispatch e p in (e', p').

(** The save ran and wrote the file; the user then edits the comment, so
    a save is armed again while the suppression flag is still set. *)
Definition saved_then_edited : World :=
  let w := run_on (hidden_armed sample_env) 0%nat timer_fires in
  run_on w 0%nat
    (fun e p => gsp_app_update posix e p (Some "Foo") (Some "My foo")
                  (Some "foo --daemon") 0).

Definition entry_of (w : World) (a : nat) : GspAppPrivate :=
  match heap w !! a with
  | Some p => p
  | None => gsp_app_init
  end.

(** A launcher for bar as [gsp_app_create] fills it in. *)
Definition created_entry : GspAppPrivate :=
  snd (gsp_app_create_fill posix sample_env "bar.desktop" (Some "Bar") None
         (Some "bar") 5).

Definition local_files : Gio :=
  {| g_file_new_for_uri := fun uri => uri;
     g_file_get_basename := fun f => Some (g_path_get_basename f) |}.

Definition baz_file : GKeyFile :=
  {| kf_hidden := Some true; kf_nodisplay := None; kf_name := None;
     kf_comment := None; kf_exec := Some "baz"; kf_icon := Some "/opt/baz.png";
     kf_delay := Some 7; kf_only_show_in := Some ["GNOME"; "MATE"];
     kf_not_show_in := Some ["KDE"]; kf_other := nil |}.

Definition gnome_only_file : GKeyFile :=
  {| kf_hidden := None; kf_nodisplay := None; kf_name := Some "Tweaks";
     kf_comment := None; kf_exec := Some "tweaks"; kf_icon := None;
     kf_delay := None; kf_only_show_in := Some ["GNOME"];
     kf_not_show_in := None; kf_other := nil |}.

(** The sample environment with two more desktop files in /opt. *)
Definition baz_env : Env :=
  set_files (<[ "/opt/baz.desktop" := Desktop baz_file ]>
               (<[ "/opt/tweaks.desktop" := Desktop gnome_only_file ]>
                  (files sample_env)))
            sample_env.

Definition user_foo_file : GKeyFile :=
  {| kf_hidden := None; kf_nodisplay := None; kf_name := Some "UserFoo";
     kf_comment := Some "Runs foo"; kf_exec := Some "foo --daemon";
     kf_icon := None; kf_delay := None; kf_only_show_in := None;
     kf_not_show_in := None; kf_other := nil |}.

(** The user already has an override of foo.desktop, which cannot be
    written at the moment. *)
Definition user_override_env : Env :=
  {| files :=
       <[ "/home/u/.config/autostart/foo.desktop" := Desktop user_foo_file ]>
         (files sample_env);
     denied := ["/home/u/.config/autostart/foo.desktop"];
     dirs := dirs sample_env;
     next_source := 1%positive; sources := nil; signals := nil |}.

(** The override is loaded at rank 0 and registered; the user renames
    the entry, and the write fails when the timer fires: the edit is in
    memory only, the mask is kept and the timer handle is 0. *)
Definition edit_failed_world : World :=
  let w :=
    match gsp_app_new posix (empty_world user_override_env)
            "/home/u/.config/autostart/foo.desktop" 0 with
    | (_, Some a, w) =>
        {| env := env w; heap := heap w; next_obj := next_obj w;
           apps := a :: apps w |}
    | (_, None, w) => w
    end in
  let w := run_on w 0%nat
             (fun e p => gsp_app_update posix e p (Some "Edited")
                           (Some "Runs foo") (Some "foo --daemon") 0) in
  run_on w 0%nat timer_fires.

(** * Properties *)

(** Case analysis on the conditions of the code. *)
Ltac case_if :=
  match goal with
  | |- context [if ?c then _ else _] => destruct c eqn:?
  end.

(** ** Blank-tolerant equality *)

Lemma _gsp_str_equal_refl a : _gsp_str_equal a a = true.
Proof.
  destruct a as [s|]; unfold _gsp_str_equal; cbn; [|reflexivity].
  now rewrite String.eqb_refl.
Qed.

Lemma _gsp_str_equal_sym a b : _gsp_str_equal a b = _gsp_str_equal b a.
Proof.
  destruct a as [s|], b as [t|]; unfold _gsp_str_equal;
    cbn [g_strcmp0_is_zero is_null]; rewrite ?andb_false_r, ?andb_true_r;
    try reflexivity.
  rewrite (String.eqb_sym s t). reflexivity.
Qed.

Lemma _gsp_str_equal_empty_null :
  _gsp_str_equal (Some EmptyString) None = true
  /\ _gsp_str_equal None (Some EmptyString) = true.
Proof. split; reflexivity. Qed.

(** What [_gsp_str_equal] accepts: the same string, or one side [NULL]
    and the other empty. *)
Lemma _gsp_str_equal_spec a b :
  _gsp_str_equal a b = true <->
  a = b \/ (a = Some EmptyString /\ b = None)
        \/ (a = None /\ b = Some EmptyString).
Proof.
  destruct a as [s|], b as [t|]; unfold _gsp_str_equal;
    cbn [g_strcmp0_is_zero is_null]; rewrite ?andb_false_r, ?andb_true_r.
  - destruct (String.eqb_spec s t) as [E|N].
    + subst. split; auto.
    + split; [discriminate|].
      intros [H|[[_ H]|[H _]]]; try discriminate.
      inversion H. contradiction.
  - destruct s; cbn; split; auto; try discriminate.
    intros [H|[[H _]|[H _]]]; discriminate.
  - destruct t; cbn; split; auto; try discriminate.
    intros [H|[[_ H]|[_ H]]]; discriminate.
  - split; auto.
Qed.

(** ** Bits of the save mask *)

Lemma lor_bit_nonzero m b : b <> 0 -> Z.lor m b <> 0.
Proof. intros Hb H. apply Z.lor_eq_0_iff in H. tauto. Qed.

Lemma mask_has_lor m b : b <> 0 -> mask_has (Z.lor m b) b = true.
Proof.
  intros Hb. unfold mask_has.
  rewrite Z.land_lor_distr_l, Z.land_diag.
  apply negb_true_iff, Z.eqb_neq, lor_bit_nonzero, Hb.
Qed.

(** ** Files *)

Lemma set_files_same e : set_files (files e) e = e.
Proof. destruct e; reflexivity. Qed.

Lemma g_remove_if_exists e q :
  (if g_file_test_exists e q then g_remove e q else e) = g_remove e q.
Proof.
  destruct q as [q|]; cbn; [|reflexivity].
  case_bool_decide as H; [reflexivity|].
  rewrite delete_id; [now rewrite set_files_same|].
  destruct (files e !! q) eqn:E; [|reflexivity]. elim H; eauto.
Qed.

Section Properties.

Variable X : Externals.

(** ** Arming a save *)

Lemma queue_save_arms e p :
  save_timeout (snd (_gsp_app_queue_save X e p)) <> 0.
Proof.
  destruct p; unfold _gsp_app_queue_save; cbn.
  repeat (case_if; cbn); discriminate.
Qed.

Lemma queue_save_mask e p :
  save_mask (snd (_gsp_app_queue_save X e p)) = save_mask p.
Proof.
  destruct p; unfold _gsp_app_queue_save; cbn.
  repeat (case_if; cbn); reflexivity.
Qed.

Lemma queue_save_promotes e p :
  xdg_position (snd (_gsp_app_queue_save X e p)) = 0.
Proof.
  destruct p; unfold _gsp_app_queue_save; cbn.
  repeat (case_if; cbn); try reflexivity;
    match goal with H : negb (Z.eqb _ 0) = false |- _ =>
      apply negb_false_iff, Z.eqb_eq in H; exact H end.
Qed.

(** Arming never changes the document the next flush starts from, as
    long as the entry has a path. *)
Lemma queue_save_use_path e p :
  is_Some (path p) ->
  save_use_path (snd (_gsp_app_queue_save X e p)) = save_use_path p.
Proof.
  intros [q Hq]. destruct (old_system_path p) eqn:Ho.
  all: destruct p; cbn in Hq, Ho; subst.
  all: unfold _gsp_app_queue_save, save_use_path; cbn.
  all: repeat (case_if; cbn); reflexivity.
Qed.

(** ** The flush *)

Lemma save_write_clears_timer e p o e' p' :
  _gsp_app_save e p = (o, e', p') -> o <> ShadowRemoved ->
  save_timeout p' = 0.
Proof.
  unfold _gsp_app_save. intros H Ho.
  destruct (_gsp_app_user_equal_system e p).
  - inversion H; subst. now elim Ho.
  - destruct (g_key_file_save_to_file e (save_document e p) (path p));
      inversion H; subst; reflexivity.
Qed.

Lemma save_shadow_keeps_timer e p e' p' :
  _gsp_app_save e p = (ShadowRemoved, e', p') ->
  save_timeout p' = save_timeout p.
Proof.
  unfold _gsp_app_save. intros H.
  destruct (_gsp_app_user_equal_system e p).
  - inversion H; subst. reflexivity.
  - destruct (g_key_file_save_to_file e (save_document e p) (path p));
      inversion H.
Qed.

Lemma save_success_clears_mask e p o e' p' :
  _gsp_app_save e p = (o, e', p') -> o <> WriteFailed ->
  save_mask p' = 0 /\ old_system_path p' = None.
Proof.
  unfold _gsp_app_save. intros H Ho.
  destruct (_gsp_app_user_equal_system e p).
  - inversion H; subst. split; reflexivity.
  - destruct (g_key_file_save_to_file e (save_document e p) (path p));
      inversion H; subst; [split; reflexivity | now elim Ho].
Qed.

Lemma save_written_sets_flag e p e' p' :
  _gsp_app_save e p = (Written, e', p') ->
  p' = set_save_timeout 0
         (_gsp_app_save_done_success (set_skip_next_monitor_event true p)).
Proof.
  unfold _gsp_app_save. intros H.
  destruct (_gsp_app_user_equal_system e p); [inversion H|].
  destruct (g_key_file_save_to_file e (save_document e p) (path p));
    inversion H; subst; reflexivity.
Qed.

Lemma save_failed_state e p e' p' :
  _gsp_app_save e p = (WriteFailed, e', p') ->
  e' = e /\ p' = set_save_timeout 0 p.
Proof.
  unfold _gsp_app_save. intros H.
  destruct (_gsp_app_user_equal_system e p); [inversion H|].
  destruct (g_key_file_save_to_file e (save_document e p) (path p));
    inversion H; subst; split; reflexivity.
Qed.

(** [gsp_app_dispose] is the flush that [step] runs for [OpDispose]. *)
Lemma dispose_as_step e p :
  save_timeout p <> 0 ->
  gsp_app_dispose e p =
    (let '(_, e', p') :=
       _gsp_app_save (g_source_remove e (save_timeout p))
                     (set_save_timeout 0 p) in (e', p')).
Proof.
  intros H. unfold gsp_app_dispose.
  apply Z.eqb_neq in H. rewrite H. reflexivity.
Qed.

End Properties.

(** ** Editing *)

Section Editing.

Variable X : Externals.

(** C8: [gsp_app_update] with values that all equal the current ones
    under the blank-tolerant equality (exact equality for the delay)
    changes nothing: the entry is the same (no field replaced, no dirty
    bit, no timer) and so is the environment (no source added, no signal
    emitted). *)
Theorem update_with_equal_values_is_noop
    (e : Env) (p : GspAppPrivate) (name' comment' exec' : option string)
    (delay' : Z) :
  _gsp_str_equal name' (name p) = true ->
  _gsp_str_equal comment' (comment p) = true ->
  _gsp_str_equal exec' (exec p) = true ->
  delay' = delay p ->
  gsp_app_update X e p name' comment' exec' delay' = (e, p).
Proof.
  intros Hn Hc Hx Hd. unfold gsp_app_update.
  rewrite Hn. cbn. rewrite Hc. cbn. rewrite Hx. cbn.
  rewrite Hd, Z.eqb_refl. reflexivity.
Qed.

(** An empty name given to an entry with no name never touches the name
    or its dirty bit, whatever the other arguments do. *)
Lemma update_empty_name_keeps_name_bit e p comment' exec' delay' :
  name p = None ->
  let p' := snd (gsp_app_update X e p (Some EmptyString) comment' exec' delay') in
  name p' = None
  /\ mask_has (save_mask p') GSP_ASP_SAVE_MASK_NAME
     = mask_has (save_mask p) GSP_ASP_SAVE_MASK_NAME.
Proof.
  intros Hn. destruct p; cbn in Hn; subst.
  unfold gsp_app_update, _gsp_app_queue_save, mask_has; cbn.
  repeat (case_if; cbn); split; try reflexivity;
    rewrite ?Z.land_lor_distr_l; cbn; rewrite ?Z.lor_0_r; reflexivity.
Qed.

End Editing.

(** ** The flush *)

Section Flush.

Variable X : Externals.

(** C7: when the write of a flush fails, the dirty mask and the pending
    original path are what they were (only the timer handle is reset, and
    the environment is untouched), and once the save of the entry is
    armed again the flush starts from the same document with the same
    mask. *)
Theorem failed_write_keeps_pending_state
    (e e' : Env) (p p' : GspAppPrivate) :
  _gsp_app_save e p = (WriteFailed, e', p') ->
  save_mask p' = save_mask p
  /\ old_system_path p' = old_system_path p
  /\ p' = set_save_timeout 0 p
  /\ e' = e
  /\ (is_Some (path p) ->
      forall e2,
        save_use_path (snd (_gsp_app_queue_save X e2 p')) = save_use_path p
        /\ save_mask (snd (_gsp_app_queue_save X e2 p')) = save_mask p).
Proof.
  intros H. apply save_failed_state in H. destruct H as [-> ->].
  repeat split; try reflexivity.
  - rewrite queue_save_use_path; [reflexivity | assumption].
  - rewrite queue_save_mask. reflexivity.
Qed.

(** C4: an entry whose user copy says what the system file of the same
    name says (hidden, name, comment, exec, icon under the blank-tolerant
    equality, and the delay) is flushed by removing the user file:
    afterwards the files are the old ones without the user file (nothing
    is written), the entry points to the system file at the system
    directory's rank, and the mask and the pending original path are
    cleared. *)
Theorem save_removes_redundant_user_copy
    (e : Env) (p : GspAppPrivate) (b system_dir : string) (keyfile : GKeyFile) :
  basename p = Some b ->
  path p = Some (user_autostart_file X (Some b)) ->
  gsp_app_manager_get_dir (dirs e) (xdg_system_position p) = Some system_dir ->
  files e !! g_build_filename [Some system_dir; Some b] = Some (Desktop keyfile) ->
  gsp_key_file_get_boolean keyfile G_KEY_FILE_DESKTOP_KEY_HIDDEN false = hidden p ->
  _gsp_str_equal (gsp_key_file_get_locale_string keyfile G_KEY_FILE_DESKTOP_KEY_NAME)
                 (name p) = true ->
  _gsp_str_equal (gsp_key_file_get_locale_string keyfile G_KEY_FILE_DESKTOP_KEY_COMMENT)
                 (comment p) = true ->
  _gsp_str_equal (gsp_key_file_get_string keyfile G_KEY_FILE_DESKTOP_KEY_EXEC)
                 (exec p) = true ->
  _gsp_str_equal (gsp_key_file_get_locale_string keyfile G_KEY_FILE_DESKTOP_KEY_ICON)
                 (icon p) = true ->
  gsp_key_file_get_delay keyfile = delay p ->
  exists e' p',
    _gsp_app_save e p = (ShadowRemoved, e', p')
    /\ e' = set_files (delete (user_autostart_file X (Some b)) (files e)) e
    /\ path p' = Some (g_build_filename [Some system_dir; Some b])
    /\ xdg_position p' = xdg_system_position p
    /\ save_mask p' = 0
    /\ old_system_path p' = None.
Proof.
  intros Hb Hp Hdir Hfile Hh Hn Hc Hx Hi Hd.
  unfold _gsp_app_save, _gsp_app_user_equal_system.
  rewrite Hdir, Hb. cbn [g_key_file_load_from_file].
  rewrite Hfile, Hh, Bool.eqb_reflx, Hn, Hc, Hx, Hi, Hd, Z.eqb_refl.
  cbn [negb]. rewrite g_remove_if_exists, Hp.
  eexists _, _. split; [reflexivity|].
  repeat split.
Qed.

End Flush.

(** C1: on the entry that was hidden and shown again while its save was
    armed (timer handle 2), the flush leaves through the shadow-removal
    exit and the timer handle is still 2 when it returns. *)
Theorem save_shadow_removal_leaves_timer_handle :
  let p := entry_of hidden_then_shown 0 in
  let r := _gsp_app_save (env hidden_then_shown) p in
  save_timeout p = 2
  /\ fst (fst r) = ShadowRemoved
  /\ save_timeout (snd r) = 2.
Proof. vm_compute. repeat split. Qed.

(** ** The registry *)

Lemma g_strcmp0_is_zero_Some b o :
  g_strcmp0_is_zero (Some b) o = true <-> o = Some b.
Proof.
  destruct o as [s|]; cbn; [|split; discriminate].
  rewrite String.eqb_eq. split; [intros ->; reflexivity | now inversion 1].
Qed.

Lemma find_in_Some h l b a p :
  find_in h l b = Some (a, p) -> h !! a = Some p /\ basename p = Some b.
Proof.
  induction l as [|x l IH]; cbn [find_in]; [discriminate|].
  destruct (h !! x) as [px|] eqn:Ex; [|exact IH].
  destruct (g_strcmp0_is_zero (Some b) (basename px)) eqn:Eb; [|exact IH].
  intros H; inversion H; subst. split; [exact Ex|].
  now apply g_strcmp0_is_zero_Some.
Qed.

(** Replacing the found entry by one of the same base name does not
    change what the lookup finds. *)
Lemma find_in_insert h l b a p p1 :
  find_in h l b = Some (a, p) -> basename p1 = basename p ->
  find_in (<[a := p1]> h) l b = Some (a, p1).
Proof.
  intros Hf Hb. pose proof (find_in_Some _ _ _ _ _ Hf) as [Ha Hbp].
  induction l as [|x l IH]; cbn [find_in] in *; [discriminate|].
  destruct (decide (x = a)) as [->|Hne].
  - rewrite lookup_insert_eq, Hb, Hbp. cbn. now rewrite String.eqb_refl.
  - rewrite lookup_insert_ne by congruence.
    destruct (h !! x) as [px|]; [|auto].
    destruct (g_strcmp0_is_zero (Some b) (basename px)); [|auto].
    inversion Hf; congruence.
Qed.

Lemma set_app_twice w e1 e2 a p1 p2 :
  set_app (set_app w e1 a p1) e2 a p2 = set_app w e2 a p2.
Proof. unfold set_app; cbn. now rewrite insert_insert_eq. Qed.

Section Loading.

Variable X : Externals.

(** What [gsp_app_new] does when the lookup finds an entry and one of the
    two early exits applies. *)
Lemma gsp_app_new_early w path' xdg_position' a p :
  gsp_app_manager_find_app_with_basename w (g_path_get_basename path')
    = Some (a, p) ->
  (Z.eqb (xdg_position p) xdg_position' && skip_next_monitor_event p = true ->
   gsp_app_new X w path' xdg_position'
     = (Suppressed, None,
        set_app w (env w) a (set_skip_next_monitor_event false p)))
  /\ (Z.eqb (xdg_position p) xdg_position' && skip_next_monitor_event p = false ->
      Z.ltb (xdg_position p) xdg_position' || negb (Z.eqb (save_timeout p) 0) = true ->
      gsp_app_new X w path' xdg_position'
        = (Duplicate, None,
           set_app w (env w) a
             (set_xdg_system_position
                (Z.min xdg_position' (xdg_system_position p)) p))).
Proof.
  intros Hf. unfold gsp_app_new, gsp_app_new_body. rewrite Hf. split.
  - intros ->. reflexivity.
  - intros -> ->. reflexivity.
Qed.

(** C6: a file of the same name loaded at a rank strictly larger than
    the entry's own makes [gsp_app_new] return [NULL]; the only change
    in the whole state is the entry's [xdg_system_position], which
    becomes the minimum of the incoming rank and its old value, so name,
    exec, comment, icon, hidden, delay, description and path are as
    before. *)
Theorem lower_priority_load_only_updates_system_position
    (w : World) (path' : string) (xdg_position' : Z) (a : nat)
    (p : GspAppPrivate) :
  gsp_app_manager_find_app_with_basename w (g_path_get_basename path')
    = Some (a, p) ->
  xdg_position p < xdg_position' ->
  gsp_app_new X w path' xdg_position'
    = (Duplicate, None,
       set_app w (env w) a
         (set_xdg_system_position
            (Z.min xdg_position' (xdg_system_position p)) p)).
Proof.
  intros Hf Hlt. apply (gsp_app_new_early _ _ _ _ _ Hf).
  - replace (Z.eqb (xdg_position p) xdg_position') with false; [reflexivity|].
    symmetry. apply Z.eqb_neq. lia.
  - apply Z.ltb_lt in Hlt. now rewrite Hlt.
Qed.

(** C5: after a flush that wrote the file, the suppression flag is set,
    and the next [gsp_app_new] for the entry's path and rank returns
    [NULL] through the suppression exit: the flag is cleared and nothing
    else changes, in the entry or elsewhere. *)
Theorem reload_after_written_save_is_suppressed
    (w : World) (a : nat) (p p1 : GspAppPrivate) (q : string) (e1 : Env) :
  gsp_app_manager_find_app_with_basename w (g_path_get_basename q)
    = Some (a, p) ->
  path p = Some q ->
  _gsp_app_save (env w) p = (Written, e1, p1) ->
  skip_next_monitor_event p1 = true
  /\ path p1 = Some q
  /\ xdg_position p1 = xdg_position p
  /\ gsp_app_new X (set_app w e1 a p1) q (xdg_position p1)
     = (Suppressed, None,
        set_app w e1 a (set_skip_next_monitor_event false p1)).
Proof.
  intros Hf Hq Hs. apply save_written_sets_flag in Hs. subst p1.
  cbn [skip_next_monitor_event path xdg_position set_save_timeout
       _gsp_app_save_done_success set_old_system_path set_save_mask
       set_skip_next_monitor_event].
  repeat split; [exact Hq|].
  set (p1 := set_save_timeout 0 _).
  assert (Hf1 : gsp_app_manager_find_app_with_basename (set_app w e1 a p1)
                  (g_path_get_basename q) = Some (a, p1)).
  { apply find_in_insert with (p := p); [exact Hf | reflexivity]. }
  destruct (gsp_app_new_early _ q (xdg_position p) _ _ Hf1) as [H _].
  rewrite H.
  - now rewrite set_app_twice.
  - cbn. now rewrite Z.eqb_refl.
Qed.

(** C9 as amended: while a save is armed, [gsp_app_new] on the entry
    returns [NULL] without reloading anything: through the suppression
    exit when the rank is the entry's and the flag is set (the flag is
    cleared), through the lower-priority-duplicate exit otherwise (only
    [xdg_system_position] is lowered).  So a call that returns the entry,
    reloaded, found it with no save armed.  The guard is the timer
    handle, not the dirty mask: it covers an edit for as long as its save
    is armed, and no longer once a failed write has reset the handle. *)
Theorem armed_entry_is_not_reloaded
    (w : World) (path' : string) (xdg_position' : Z) (a : nat)
    (p : GspAppPrivate) :
  gsp_app_manager_find_app_with_basename w (g_path_get_basename path')
    = Some (a, p) ->
  (save_timeout p <> 0 ->
   gsp_app_new X w path' xdg_position'
   = if Z.eqb (xdg_position p) xdg_position' && skip_next_monitor_event p
     then (Suppressed, None,
           set_app w (env w) a (set_skip_next_monitor_event false p))
     else (Duplicate, None,
           set_app w (env w) a
             (set_xdg_system_position
                (Z.min xdg_position' (xdg_system_position p)) p)))
  /\ (fst (fst (gsp_app_new X w path' xdg_position')) = Returned ->
      save_timeout p = 0).
Proof.
  intros Hf.
  assert (Harmed : save_timeout p <> 0 ->
     gsp_app_new X w path' xdg_position'
     = if Z.eqb (xdg_position p) xdg_position' && skip_next_monitor_event p
       then (Suppressed, None,
             set_app w (env w) a (set_skip_next_monitor_event false p))
       else (Duplicate, None,
             set_app w (env w) a
               (set_xdg_system_position
                  (Z.min xdg_position' (xdg_system_position p)) p))).
  { intros Ht. destruct (gsp_app_new_early _ _ xdg_position' _ _ Hf) as [H1 H2].
    destruct (Z.eqb (xdg_position p) xdg_position' && skip_next_monitor_event p);
      [now apply H1 | apply H2; [reflexivity|]].
    apply Z.eqb_neq in Ht. rewrite Ht. cbn. apply orb_true_r. }
  split; [exact Harmed|].
  intros Hr. destruct (Z.eq_dec (save_timeout p) 0) as [E|N]; [exact E|].
  rewrite (Harmed N) in Hr.
  destruct (Z.eqb (xdg_position p) xdg_position' && skip_next_monitor_event p);
    discriminate.
Qed.

End Loading.

(** C9, the claim as stated fails, twice.  The entry of
    [saved_then_edited] has a save armed (timer handle 2) and its flag
    set; the file monitor's call for the user file at rank 0 leaves
    through the suppression exit, not the duplicate one, and
    [xdg_system_position] stays 1 where the duplicate exit would store
    [MIN (0, 1)].  And the entry of [edit_failed_world] holds an edit
    that was never written (name "Edited", name bit dirty) with no timer
    left after the failed write; the next call for its file at rank 0
    reloads it, and the name is "UserFoo" again. *)
Lemma armed_entry_load_takes_suppression_exit :
  let r := gsp_app_new posix saved_then_edited
             "/home/u/.config/autostart/foo.desktop" 0 in
  let r' := gsp_app_new posix edit_failed_world
              "/home/u/.config/autostart/foo.desktop" 0 in
  (save_timeout (entry_of saved_then_edited 0) = 2
   /\ fst (fst r) = Suppressed
   /\ xdg_system_position (entry_of (snd r) 0) = 1
   /\ skip_next_monitor_event (entry_of saved_then_edited 0) = true
   /\ skip_next_monitor_event (entry_of (snd r) 0) = false)
  /\ (name (entry_of edit_failed_world 0) = Some "Edited"
      /\ save_mask (entry_of edit_failed_world 0) = GSP_ASP_SAVE_MASK_NAME
      /\ save_timeout (entry_of edit_failed_world 0) = 0
      /\ fst (fst r') = Returned
      /\ name (entry_of (snd r') 0) = Some "UserFoo").
Proof. vm_compute. repeat split. Qed.

(** ** Creation *)

Section Creation.

Variable X : Externals.

Lemma create_fill_fields e basename' name' comment' exec' delay' :
  let p := snd (gsp_app_create_fill X e basename' name' comment' exec' delay') in
  basename p = Some basename'
  /\ name p = (if gsm_util_text_is_blank X name' then exec' else name')
  /\ exec p = exec' /\ comment p = comment' /\ delay p = delay'
  /\ xdg_position p = 0 /\ xdg_system_position p = G_MAXUINT
  /\ save_mask p = GSP_ASP_SAVE_MASK_ALL
  /\ save_timeout p = Z.pos (next_source e).
Proof.
  unfold gsp_app_create_fill, _gsp_app_queue_save; cbn.
  destruct (gsm_util_text_is_blank X name'); cbn; repeat split.
Qed.

(** The loop of [_gsp_find_free_basename] never stops for lack of
    iterations: beyond [_GSP_FIND_MAX_TRY - i] of them, one more changes
    nothing. *)
Lemma find_free_loop_enough w base_path n :
  forall i filename basename',
    _GSP_FIND_MAX_TRY - i < Z.of_nat n ->
    find_free_loop w base_path (S n) i filename basename'
    = find_free_loop w base_path n i filename basename'.
Proof.
  induction n as [|n IH]; intros i filename basename' Hi.
  - cbn [find_free_loop].
    replace (Z.ltb i _GSP_FIND_MAX_TRY) with false;
      [now rewrite andb_false_r|].
    symmetry. apply Z.ltb_ge. cbn in Hi. lia.
  - change (find_free_loop w base_path (S (S n)) i filename basename')
      with (if negb (is_null (gsp_app_manager_find_app_with_basename w basename'))
               && g_file_test_exists (env w) (Some filename)
               && Z.ltb i _GSP_FIND_MAX_TRY
            then find_free_loop w base_path (S n) (i + 1)
                   (base_path ++ "-" ++ printf_d i ++ ".desktop")
                   (g_path_get_basename
                      (base_path ++ "-" ++ printf_d i ++ ".desktop"))
            else (i, basename')).
    rewrite IH by lia. reflexivity.
Qed.

Lemma find_free_loop_iterations w base_path k filename basename' :
  find_free_loop w base_path (Z.to_nat _GSP_FIND_MAX_TRY + k) 1 filename basename'
  = find_free_loop w base_path (Z.to_nat _GSP_FIND_MAX_TRY) 1 filename basename'.
Proof.
  induction k as [|k IH]; [now rewrite Nat.add_0_r|].
  rewrite Nat.add_succ_r, find_free_loop_enough; [exact IH|].
  unfold _GSP_FIND_MAX_TRY. lia.
Qed.

(** The first candidate is returned as soon as it is unknown to the
    registry or has no file: the loop goes on only while both hold. *)
Lemma find_free_basename_first_candidate w suggested :
  g_str_has_suffix suggested ".desktop" = false ->
  let filename :=
    g_build_filename [Some (g_get_user_config_dir X); Some "autostart";
                      Some suggested] ++ ".desktop" in
  negb (is_null (gsp_app_manager_find_app_with_basename w
                   (g_path_get_basename filename)))
  && g_file_test_exists (env w) (Some filename) = false ->
  _gsp_find_free_basename X w suggested = Some (g_path_get_basename filename).
Proof.
  intros Hs filename Hfree. unfold _gsp_find_free_basename. rewrite Hs.
  fold filename.
  change _GSP_FIND_MAX_TRY with (Z.succ 9999) at 1.
  rewrite Z2Nat.inj_succ by lia.
  cbn [find_free_loop]. rewrite Hfree. reflexivity.
Qed.

(** When no free name is found nothing is created. *)
Lemma create_without_free_name w name' comment' exec' delay' argv0 rest :
  g_shell_parse_argv X exec' = Some (argv0, rest) ->
  _gsp_find_free_basename X w argv0 = None ->
  gsp_app_create X w name' comment' (Some exec') delay' = w.
Proof.
  intros Hp Hf. unfold gsp_app_create. rewrite Hp, Hf.
  destruct (gsm_util_text_is_blank X (Some exec')); reflexivity.
Qed.

(** C10: when creation goes through (the command is not blank, it
    tokenizes and a free base name is found), the entry that is
    allocated and registered has the command as its name if the given
    name is blank, and the given name otherwise. *)
Theorem create_name_falls_back_to_exec
    (w : World) (name' comment' : option string) (exec' : string) (delay' : Z)
    (argv0 : string) (rest : list string) (basename' : string) :
  gsm_util_text_is_blank X (Some exec') = false ->
  g_shell_parse_argv X exec' = Some (argv0, rest) ->
  _gsp_find_free_basename X w argv0 = Some basename' ->
  exists p,
    let w' := gsp_app_create X w name' comment' (Some exec') delay' in
    apps w' = next_obj w :: apps w
    /\ heap w' !! next_obj w = Some p
    /\ basename p = Some basename'
    /\ name p = (if gsm_util_text_is_blank X name' then Some exec' else name').
Proof.
  intros Hb Hp Hf. unfold gsp_app_create. rewrite Hb, Hp, Hf.
  pose proof (create_fill_fields (env w) basename' name' comment' (Some exec')
                delay') as Hfields.
  destruct (gsp_app_create_fill X (env w) basename' name' comment'
              (Some exec') delay') as [e p].
  cbn in Hfields. destruct Hfields as (H1 & H2 & _).
  exists p. cbn. rewrite lookup_insert_eq. auto.
Qed.

End Creation.

(** C3: the search returns a name the registry already holds.  With
    foo.desktop registered (loaded from the system directory) and no such
    file in the user directory, the suggestion "foo" yields
    "foo.desktop"; and two launchers created one after the other for the
    command "bar", the second before the first is flushed, both get
    "bar.desktop" instead of names that differ by a numeric suffix. *)
Theorem find_free_basename_returns_registered_name :
  let w := loaded_world sample_env in
  let w1 := gsp_app_create posix w (Some "Bar") None (Some "bar") 0 in
  let w2 := gsp_app_create posix w1 (Some "Bar again") None (Some "bar") 0 in
  fst <$> gsp_app_manager_find_app_with_basename w "foo.desktop" = Some 0%nat
  /\ g_file_test_exists (env w) (Some "/home/u/.config/autostart/foo.desktop")
     = false
  /\ _gsp_find_free_basename posix w "foo" = Some "foo.desktop"
  /\ fst <$> gsp_app_manager_find_app_with_basename w1 "bar.desktop" = Some 1%nat
  /\ _gsp_find_free_basename posix w1 "bar" = Some "bar.desktop"
  /\ apps w2 = [2%nat; 1%nat; 0%nat]
  /\ basename (entry_of w2 1) = Some "bar.desktop"
  /\ basename (entry_of w2 2) = Some "bar.desktop".
Proof. vm_compute. repeat split. Qed.

(** ** The dirty mask and the armed save over the life of an entry *)

Section Lifecycle.

Variable X : Externals.

Lemma queue_save_dirty e p :
  save_mask p <> 0 ->
  save_mask (snd (_gsp_app_queue_save X e p)) <> 0
  /\ save_timeout (snd (_gsp_app_queue_save X e p)) <> 0.
Proof.
  intros H. rewrite queue_save_mask. split; [exact H | apply queue_save_arms].
Qed.

Lemma update_description_mask p :
  save_mask (_gsp_app_update_description X p) = save_mask p.
Proof. reflexivity. Qed.

(** An edit either changes nothing or leaves the entry dirty and armed. *)
Lemma update_noop_or_armed e p name' comment' exec' delay' :
  let p' := snd (gsp_app_update X e p name' comment' exec' delay') in
  p' = p \/ (save_mask p' <> 0 /\ save_timeout p' <> 0).
Proof.
  unfold gsp_app_update.
  destruct (negb (_gsp_str_equal name' (name p))); cbn;
  destruct (negb (_gsp_str_equal comment' (comment p))); cbn;
  destruct (negb (_gsp_str_equal exec' (exec p))); cbn;
  destruct (negb (Z.eqb delay' (delay p))); cbn;
  try (left; reflexivity).
  all: right.
  all: match goal with
       | |- context [_gsp_app_queue_save _ ?e0 ?q] =>
           destruct (queue_save_dirty e0 q) as [Hm Ht];
           [ cbn; apply lor_bit_nonzero; discriminate
           | destruct (_gsp_app_queue_save X e0 q); split; assumption ]
       end.
Qed.

Lemma set_hidden_noop_or_armed e p hidden' :
  let p' := snd (gsp_app_set_hidden X e p hidden') in
  p' = p \/ (save_mask p' <> 0 /\ save_timeout p' <> 0).
Proof.
  unfold gsp_app_set_hidden.
  destruct (Bool.eqb hidden' (hidden p)); cbn; [left; reflexivity|right].
  match goal with
  | |- context [_gsp_app_queue_save _ ?e0 ?q] =>
      destruct (queue_save_dirty e0 q) as [Hm Ht];
      [ cbn; apply lor_bit_nonzero; discriminate
      | destruct (_gsp_app_queue_save X e0 q); split; assumption ]
  end.
Qed.

Lemma copy_unhide_noop_or_armed e p :
  let p' := snd (gsp_app_copy_unhide X e p) in
  p' = p \/ (save_mask p' <> 0 /\ save_timeout p' <> 0).
Proof.
  unfold gsp_app_copy_unhide.
  destruct (hidden p); cbn; [right|left; reflexivity].
  apply queue_save_dirty. cbn. apply lor_bit_nonzero. discriminate.
Qed.

(** Deleting an entry that also exists in a system directory persists a
    hiding override: the entry is dirty and armed. *)
Lemma delete_with_system_copy_arms e p :
  Z.eqb (xdg_position p) 0 && Z.eqb (xdg_system_position p) G_MAXUINT = false ->
  let p' := snd (gsp_app_delete X e p) in
  save_mask p' <> 0 /\ save_timeout p' <> 0.
Proof.
  intros H. unfold gsp_app_delete. rewrite H.
  match goal with
  | |- context [_gsp_app_queue_save _ ?e0 ?q] =>
      destruct (queue_save_dirty e0 q) as [Hm Ht];
      [ cbn; apply lor_bit_nonzero; discriminate
      | destruct (_gsp_app_queue_save X e0 q); split; assumption ]
  end.
Qed.

(** Deleting an entry of the user directory only cancels the timer and
    still marks the hidden field dirty. *)
Lemma delete_user_only_leaves_mask e p :
  Z.eqb (xdg_position p) 0 && Z.eqb (xdg_system_position p) G_MAXUINT = true ->
  let p' := snd (gsp_app_delete X e p) in
  save_timeout p' = 0
  /\ mask_has (save_mask p') GSP_ASP_SAVE_MASK_HIDDEN = true
  /\ hidden p' = true
  /\ fst (gsp_app_delete X e p)
     = g_signal_emit
         (g_remove (if negb (Z.eqb (save_timeout p) 0)
                    then g_source_remove e (save_timeout p) else e) (path p))
         (basename p) REMOVED.
Proof.
  intros H. unfold gsp_app_delete. rewrite H.
  destruct (negb (Z.eqb (save_timeout p) 0)) eqn:Et; cbn.
  - rewrite g_remove_if_exists. repeat split.
    apply mask_has_lor. discriminate.
  - rewrite g_remove_if_exists. apply negb_false_iff, Z.eqb_eq in Et.
    repeat split; [exact Et|]. apply mask_has_lor. discriminate.
Qed.

(** [gsp_app_new] on a known entry leaves the mask alone, and the timer
    too: it reloads only entries whose timer handle is already 0. *)
Lemma new_body_keeps_mask_and_timer e p basename' path' xdg_position' r e' p' :
  gsp_app_new_body X e (Some p) basename' path' xdg_position' = (r, e', Some p') ->
  save_mask p' = save_mask p /\ save_timeout p' = save_timeout p.
Proof.
  unfold gsp_app_new_body.
  destruct (Z.eqb (xdg_position p) xdg_position' && skip_next_monitor_event p).
  { intros H; inversion H; subst. split; reflexivity. }
  destruct (Z.ltb (xdg_position p) xdg_position'
            || negb (Z.eqb (save_timeout p) 0)) eqn:Ed.
  { intros H; inversion H; subst. split; reflexivity. }
  apply orb_false_iff in Ed. destruct Ed as [_ Et].
  apply negb_false_iff, Z.eqb_eq in Et.
  destruct (g_key_file_load_from_file e (Some path')) as [keyfile|];
    [|intros H; inversion H; subst; split; reflexivity].
  destruct (negb (gsp_app_can_launch keyfile));
    [intros H; inversion H; subst; split; reflexivity|].
  repeat (case_if; cbn [negb andb]); intros H; inversion H; subst; clear H;
    repeat case_match; cbn; rewrite ?Et; split; reflexivity.
Qed.

(** A newly loaded entry is clean and has no timer. *)
Lemma new_body_fresh e basename' path' xdg_position' r e' p' :
  gsp_app_new_body X e None basename' path' xdg_position' = (r, e', Some p') ->
  save_mask p' = 0 /\ save_timeout p' = 0.
Proof.
  unfold gsp_app_new_body.
  destruct (g_key_file_load_from_file e (Some path')) as [keyfile|];
    [|intros H; inversion H].
  destruct (negb (gsp_app_can_launch keyfile)); [intros H; inversion H|].
  repeat (case_if; cbn [negb andb]); intros H; inversion H; subst; clear H;
    repeat case_match; cbn; split; reflexivity.
Qed.

(** Every operation but the two set apart keeps the invariant. *)
Lemma step_keeps_dirty_iff_pending e o p failed p' failed' :
  dirty_iff_pending p failed ->
  ordinary_op e o p = true ->
  step X e o (p, failed) = Some (p', failed') ->
  dirty_iff_pending p' failed'.
Proof.
  unfold dirty_iff_pending, ordinary_op. intros Inv Hop Hstep.
  destruct o; cbn [step sets_mask_apart] in Hstep, Hop.
  - (* update *)
    inversion Hstep; subst; clear Hstep.
    destruct (update_noop_or_armed e p name' comment' exec' delay') as [->|[? ?]];
      [exact Inv | tauto].
  - (* set_hidden *)
    inversion Hstep; subst; clear Hstep.
    destruct (set_hidden_noop_or_armed e p hidden') as [->|[? ?]];
      [exact Inv | tauto].
  - (* delete, a system copy exists *)
    inversion Hstep; subst; clear Hstep.
    apply negb_true_iff in Hop.
    destruct (delete_with_system_copy_arms e p Hop). tauto.
  - (* the timer fires and the flush writes *)
    destruct (Z.eqb (save_timeout p) 0) eqn:Et; [discriminate|].
    apply Z.eqb_neq in Et. unfold timeout_dispatch in Hstep.
    destruct (_gsp_app_save e p) as [[o e1] p1] eqn:Es.
    inversion Hstep; subst; clear Hstep.
    destruct o.
    + exfalso. unfold _gsp_app_save in Es.
      destruct (_gsp_app_user_equal_system e p); [discriminate Hop|].
      destruct (g_key_file_save_to_file e (save_document e p) (path p));
        discriminate Es.
    + pose proof (save_write_clears_timer _ _ _ _ _ Es ltac:(discriminate)) as Ht.
      destruct (save_success_clears_mask _ _ _ _ _ Es ltac:(discriminate)) as [Hm _].
      rewrite Hm, Ht. cbn. split; [congruence | intros [?|?]; congruence].
    + apply save_failed_state in Es. destruct Es as [_ ->]. cbn.
      split; [auto | intros _; tauto].
  - (* dispose *)
    destruct (Z.eqb (save_timeout p) 0) eqn:Et.
    { inversion Hstep; subst. exact Inv. }
    apply Z.eqb_neq in Et.
    destruct (_gsp_app_save (g_source_remove e (save_timeout p))
                (set_save_timeout 0 p)) as [[o e1] p1] eqn:Es.
    inversion Hstep; subst; clear Hstep.
    destruct o.
    + pose proof (save_shadow_keeps_timer _ _ _ _ Es) as Ht.
      destruct (save_success_clears_mask _ _ _ _ _ Es ltac:(discriminate)) as [Hm _].
      rewrite Hm, Ht. cbn. split; [congruence | intros [?|?]; congruence].
    + pose proof (save_write_clears_timer _ _ _ _ _ Es ltac:(discriminate)) as Ht.
      destruct (save_success_clears_mask _ _ _ _ _ Es ltac:(discriminate)) as [Hm _].
      rewrite Hm, Ht. cbn. split; [congruence | intros [?|?]; congruence].
    + apply save_failed_state in Es. destruct Es as [_ ->]. cbn.
      split; [auto | intros _; tauto].
  - (* gsp_app_new finds the entry *)
    destruct (gsp_app_new_body X e (Some p) (g_path_get_basename path') path'
                xdg_position') as [[r e1] [p1|]] eqn:En;
      [|destruct r; discriminate].
    apply new_body_keeps_mask_and_timer in En. destruct En as [Hm Ht].
    destruct r; inversion Hstep; subst; rewrite Hm, Ht; exact Inv.
  - (* reload_at *)
    inversion Hstep; subst. exact Inv.
  - (* set_xdg_system_position *)
    inversion Hstep; subst. exact Inv.
  - (* copy *)
    inversion Hstep; subst; clear Hstep.
    destruct (copy_unhide_noop_or_armed e p) as [->|[? ?]];
      [exact Inv | tauto].
Qed.

(** C2 as amended: in every state an entry reaches through creation,
    loading, [gsp_app_update], [gsp_app_set_hidden], [gsp_app_delete] of
    an entry that also has a system copy, [gsp_app_new], the copy path,
    disposal and timer flushes that write (successfully or not), the
    mask is non-empty exactly when a save is armed or a failed write
    awaits its retry.  Deleting an entry of the user directory only is
    the exception: it cancels the timer and still sets the hidden bit. *)
Theorem dirty_mask_iff_save_pending :
  (forall p failed, reach X ordinary_op p failed -> dirty_iff_pending p failed)
  /\ (forall e p,
        xdg_position p = 0 -> xdg_system_position p = G_MAXUINT ->
        save_timeout (snd (gsp_app_delete X e p)) = 0
        /\ mask_has (save_mask (snd (gsp_app_delete X e p)))
                    GSP_ASP_SAVE_MASK_HIDDEN = true).
Proof.
  split.
  - intros p failed H. induction H as [e b n c x d | e path' pos e' p Hn | e o p f p' f' _ IH Hop Hstep].
    + destruct (create_fill_fields X e b n c x d) as (_ & _ & _ & _ & _ & _ & _ & Hm & Ht).
      unfold dirty_iff_pending. rewrite Hm, Ht. split; [left|]; discriminate.
    + apply new_body_fresh in Hn. destruct Hn as [Hm Ht].
      unfold dirty_iff_pending. rewrite Hm, Ht.
      split; [congruence | intros [?|?]; congruence].
    + eapply step_keeps_dirty_iff_pending; eassumption.
  - intros e p H0 Hs.
    destruct (delete_user_only_leaves_mask e p) as (Ht & Hm & _).
    + rewrite H0, Hs. reflexivity.
    + split; assumption.
Qed.

End Lifecycle.

(** C2, the claim as stated fails: a launcher is created (all fields
    dirty, save armed) and deleted before the timer fires; it exists in
    the user directory only, so the timer is cancelled and the mask stays
    non-empty although no write ever failed. *)
Lemma deleted_user_entry_is_dirty_without_pending_save :
  exists p,
    reach posix every_op p false
    /\ save_mask p = GSP_ASP_SAVE_MASK_ALL
    /\ save_timeout p = 0
    /\ ~ dirty_iff_pending p false.
Proof.
  exists (snd (gsp_app_delete posix sample_env created_entry)).
  split; [|split; [|split]].
  - eapply (reach_step posix every_op sample_env OpDelete created_entry false).
    + apply reach_create.
    + reflexivity.
    + reflexivity.
  - vm_compute. reflexivity.
  - vm_compute. reflexivity.
  - unfold dirty_iff_pending. intros [H _].
    assert (Hm : save_mask (snd (gsp_app_delete posix sample_env created_entry)) <> 0)
      by (vm_compute; discriminate).
    destruct (H Hm) as [Ht|Hf]; [|discriminate Hf].
    apply Ht. vm_compute. reflexivity.
Qed.

(** ** The theorems at work on the sample states *)

Lemma update_with_equal_values_is_noop_witness :
  gsp_app_update posix sample_env gsp_app_init (Some EmptyString) None None 0
  = (sample_env, gsp_app_init).
Proof.
  apply (update_with_equal_values_is_noop posix sample_env gsp_app_init
           (Some EmptyString) None None 0); reflexivity.
Defined.

Lemma failed_write_keeps_pending_state_witness :
  let e := env (hidden_armed readonly_env) in
  let p := entry_of (hidden_armed readonly_env) 0 in
  fst (fst (_gsp_app_save e p)) = WriteFailed
  /\ save_mask (snd (_gsp_app_save e p)) = GSP_ASP_SAVE_MASK_HIDDEN
  /\ old_system_path (snd (_gsp_app_save e p))
     = Some "/etc/xdg/autostart/foo.desktop".
Proof.
  split; [vm_compute; reflexivity|].
  destruct (failed_write_keeps_pending_state posix
              (env (hidden_armed readonly_env))
              (snd (fst (_gsp_app_save (env (hidden_armed readonly_env))
                           (entry_of (hidden_armed readonly_env) 0))))
              (entry_of (hidden_armed readonly_env) 0)
              (snd (_gsp_app_save (env (hidden_armed readonly_env))
                      (entry_of (hidden_armed readonly_env) 0))))
    as (Hm & Ho & _).
  - vm_compute. reflexivity.
  - cbv zeta. rewrite Hm, Ho. split; vm_compute; reflexivity.
Defined.

Lemma save_removes_redundant_user_copy_witness :
  exists e' p',
    _gsp_app_save (env hidden_then_shown) (entry_of hidden_then_shown 0)
      = (ShadowRemoved, e', p')
    /\ e' = set_files
              (delete (user_autostart_file posix (Some "foo.desktop"))
                      (files (env hidden_then_shown)))
              (env hidden_then_shown)
    /\ path p' = Some (g_build_filename [Some "/etc/xdg/autostart";
                                         Some "foo.desktop"])
    /\ xdg_position p' = xdg_system_position (entry_of hidden_then_shown 0)
    /\ save_mask p' = 0
    /\ old_system_path p' = None.
Proof.
  apply (save_removes_redundant_user_copy posix (env hidden_then_shown)
           (entry_of hidden_then_shown 0) "foo.desktop" "/etc/xdg/autostart"
           foo_system_file); vm_compute; reflexivity.
Defined.

Lemma lower_priority_load_only_updates_system_position_witness :
  gsp_app_new posix (loaded_world sample_env)
    "/usr/share/mate/autostart/foo.desktop" 2
  = (Duplicate, None,
     set_app (loaded_world sample_env) (env (loaded_world sample_env)) 0
       (set_xdg_system_position
          (Z.min 2 (xdg_system_position (entry_of (loaded_world sample_env) 0)))
          (entry_of (loaded_world sample_env) 0))).
Proof.
  apply (lower_priority_load_only_updates_system_position posix
           (loaded_world sample_env) "/usr/share/mate/autostart/foo.desktop" 2
           0 (entry_of (loaded_world sample_env) 0)).
  - vm_compute. reflexivity.
  - vm_compute. reflexivity.
Defined.

Lemma reload_after_written_save_is_suppressed_witness :
  let w := hidden_armed sample_env in
  let r := _gsp_app_save (env w) (entry_of w 0) in
  skip_next_monitor_event (snd r) = true
  /\ path (snd r) = Some "/home/u/.config/autostart/foo.desktop"
  /\ xdg_position (snd r) = xdg_position (entry_of w 0)
  /\ gsp_app_new posix (set_app w (snd (fst r)) 0 (snd r))
       "/home/u/.config/autostart/foo.desktop" (xdg_position (snd r))
     = (Suppressed, None,
        set_app w (snd (fst r)) 0 (set_skip_next_monitor_event false (snd r))).
Proof.
  apply (reload_after_written_save_is_suppressed posix
           (hidden_armed sample_env) 0
           (entry_of (hidden_armed sample_env) 0)
           (snd (_gsp_app_save (env (hidden_armed sample_env))
                   (entry_of (hidden_armed sample_env) 0)))
           "/home/u/.config/autostart/foo.desktop"
           (snd (fst (_gsp_app_save (env (hidden_armed sample_env))
                        (entry_of (hidden_armed sample_env) 0))))).
  - vm_compute. reflexivity.
  - vm_compute. reflexivity.
  - vm_compute. reflexivity.
Defined.

Lemma armed_entry_is_not_reloaded_witness :
  gsp_app_new posix saved_then_edited "/home/u/.config/autostart/foo.desktop" 0
  = (Suppressed, None,
     set_app saved_then_edited (env saved_then_edited) 0
       (set_skip_next_monitor_event false (entry_of saved_then_edited 0))).
Proof.
  refine (proj1 (armed_entry_is_not_reloaded posix saved_then_edited
                   "/home/u/.config/autostart/foo.desktop" 0 0
                   (entry_of saved_then_edited 0) _) _).
  - vm_compute. reflexivity.
  - vm_compute. discriminate.
Defined.

Lemma create_name_falls_back_to_exec_witness :
  exists p,
    let w' := gsp_app_create posix (loaded_world sample_env) (Some "  ") None
                (Some "bar --now") 3 in
    apps w' = next_obj (loaded_world sample_env) :: apps (loaded_world sample_env)
    /\ heap w' !! next_obj (loaded_world sample_env) = Some p
    /\ basename p = Some "bar.desktop"
    /\ name p = (if gsm_util_text_is_blank posix (Some "  ")
                 then Some "bar --now" else Some "  ").
Proof.
  apply (create_name_falls_back_to_exec posix (loaded_world sample_env)
           (Some "  ") None "bar --now" 3 "bar" ["--now"] "bar.desktop");
    vm_compute; reflexivity.
Defined.

Lemma dirty_mask_iff_save_pending_witness :
  dirty_iff_pending created_entry false
  /\ dirty_iff_pending
       (snd (gsp_app_update posix sample_env created_entry (Some "Bar")
               (Some "A bar") (Some "bar") 5)) false.
Proof.
  split.
  - apply (proj1 (dirty_mask_iff_save_pending posix)). apply reach_create.
  - apply (proj1 (dirty_mask_iff_save_pending posix)).
    apply (reach_step posix ordinary_op sample_env
             (OpUpdate (Some "Bar") (Some "A bar") (Some "bar") 5)
             created_entry false).
    + apply reach_create.
    + reflexivity.
    + reflexivity.
Defined.

(** * Further properties of the code *)

(** ** Comparison and launch filter *)

(** X1: [_gsp_str_equal] is exactly equality once the empty string and
    [NULL] are identified; it is therefore an equivalence relation. *)
Theorem _gsp_str_equal_iff_blank_to_null (a b : option string) :
  _gsp_str_equal a b = true <-> blank_to_null a = blank_to_null b.
Proof.
  rewrite _gsp_str_equal_spec.
  destruct a as [[|c s]|], b as [[|d t]|]; cbn; split;
    try (intros [H|[[H1 H2]|[H1 H2]]]); try discriminate; try tauto;
    try congruence; auto.
Qed.

(** X2: an entry can be launched exactly when "MATE" is in its
    OnlyShowIn list, if it has one, and not in its NotShowIn list, if it
    has one; an OnlyShowIn list that is present but empty excludes it. *)
Theorem gsp_app_can_launch_iff (keyfile : GKeyFile) :
  gsp_app_can_launch keyfile = true <->
  (forall l, kf_only_show_in keyfile = Some l -> In "MATE" l)
  /\ (forall l, kf_not_show_in keyfile = Some l -> ~ In "MATE" l).
Proof.
  assert (Hin : forall l, existsb (String.eqb "MATE") l = true <-> In "MATE" l).
  { intros l. rewrite existsb_exists. split.
    - intros (x & Hx & E). apply String.eqb_eq in E. now subst.
    - intros H. exists "MATE". split; [exact H | apply String.eqb_refl]. }
  unfold gsp_app_can_launch, g_key_file_get_string_list.
  rewrite andb_true_iff.
  destruct (kf_only_show_in keyfile) as [only|],
           (kf_not_show_in keyfile) as [not_in|].
  - rewrite negb_true_iff, Hin, <- not_true_iff_false, Hin. split.
    + intros [H1 H2]. split; intros l E; inversion E; subst; assumption.
    + intros [H1 H2]. split; [apply H1 | apply H2]; reflexivity.
  - rewrite Hin. split.
    + intros [H1 _]. split; intros l E; inversion E; subst; assumption.
    + intros [H1 _]. split; [apply H1|]; reflexivity.
  - rewrite negb_true_iff, <- not_true_iff_false, Hin. split.
    + intros [_ H2]. split; intros l E; inversion E; subst; assumption.
    + intros [_ H2]. split; [|apply H2]; reflexivity.
  - split; [|auto]. intros _. split; intros l E; discriminate.
Qed.

(** ** Loading *)

Section LoadingMore.

Variable X : Externals.

(** What an entry holds when [gsp_app_new] returns it, newly made
    ([found] is [None]) or reloaded. *)
Lemma new_body_returned e found basename' path' xdg_position' e' p' :
  gsp_app_new_body X e found basename' path' xdg_position'
    = (Returned, e', Some p') ->
  exists keyfile,
    g_key_file_load_from_file e (Some path') = Some keyfile
    /\ gsp_app_can_launch keyfile = true
    /\ path p' = Some path'
    /\ hidden p' = gsp_key_file_get_boolean keyfile G_KEY_FILE_DESKTOP_KEY_HIDDEN false
    /\ nodisplay p'
       = gsp_key_file_get_boolean keyfile G_KEY_FILE_DESKTOP_KEY_NO_DISPLAY false
    /\ exec p' = kf_exec keyfile
    /\ name p' = (if gsm_util_text_is_blank X (kf_name keyfile)
                  then kf_exec keyfile else kf_name keyfile)
    /\ comment p' = kf_comment keyfile
    /\ delay p' = gsp_key_file_get_delay keyfile
    /\ icon p' = kf_icon keyfile
    /\ gicon p'
       = match kf_icon keyfile with
         | Some i => Some (if g_path_is_absolute i then g_file_icon_new i
                           else g_themed_icon_new i)
         | None => None
         end
    /\ description p' = description (_gsp_app_update_description X p')
    /\ xdg_position p' = xdg_position'
    /\ xdg_system_position p'
       = (if Z.ltb 0 xdg_position' then xdg_position'
          else match found with
               | Some p => xdg_system_position p
               | None => G_MAXUINT
               end)
    /\ save_timeout p' = 0
    /\ old_system_path p' = None
    /\ skip_next_monitor_event p' = false
    /\ save_mask p' = match found with Some p => save_mask p | None => 0 end
    /\ basename p' = match found with Some p => basename p | None => Some basename' end
    /\ e' = match found with
            | Some p => g_signal_emit e (basename p) CHANGED
            | None => e
            end.
Proof.
  unfold gsp_app_new_body. intros H.
  assert (Hlater :
    match found with
    | None => True
    | Some p =>
        Z.eqb (xdg_position p) xdg_position' && skip_next_monitor_event p = false
        /\ Z.ltb (xdg_position p) xdg_position' || negb (Z.eqb (save_timeout p) 0)
           = false
    end).
  { destruct found as [p|]; [|exact I].
    destruct (Z.eqb (xdg_position p) xdg_position' && skip_next_monitor_event p);
      [discriminate H|].
    destruct (Z.ltb (xdg_position p) xdg_position'
              || negb (Z.eqb (save_timeout p) 0)); [discriminate H|].
    split; reflexivity. }
  destruct found as [p|].
  - destruct Hlater as [H1 H2]. rewrite H1, H2 in H.
    destruct (g_key_file_load_from_file e (Some path')) as [keyfile|];
      [|discriminate H].
    exists keyfile.
    destruct (gsp_app_can_launch keyfile); [|discriminate H].
    cbn [negb] in H.
    destruct (gsm_util_text_is_blank X (kf_name keyfile)) eqn:Eb;
      destruct (Z.ltb 0 xdg_position') eqn:Ep;
      destruct (kf_icon keyfile) as [i|] eqn:Ei;
      cbn in H; rewrite ?Eb, ?Ei, ?Ep in H; cbn in H;
      repeat (match type of H with
              | context [if ?c then _ else _] => destruct c
              end; cbn in H);
      try discriminate H; inversion H; subst; clear H; cbn;
      rewrite ?Ei; repeat split; reflexivity.
  - destruct (g_key_file_load_from_file e (Some path')) as [keyfile|];
      [|discriminate H].
    exists keyfile.
    destruct (gsp_app_can_launch keyfile); [|discriminate H].
    cbn [negb] in H.
    destruct (gsm_util_text_is_blank X (kf_name keyfile)) eqn:Eb;
      destruct (Z.ltb 0 xdg_position') eqn:Ep;
      destruct (kf_icon keyfile) as [i|] eqn:Ei;
      cbn in H; rewrite ?Eb, ?Ei, ?Ep in H; cbn in H;
      repeat (match type of H with
              | context [if ?c then _ else _] => destruct c
              end; cbn in H);
      try discriminate H; inversion H; subst; clear H; cbn;
      rewrite ?Ei; repeat split; reflexivity.
Qed.

End LoadingMore.

Section LoadingMore2.

Variable X : Externals.

Ltac split_body H :=
  repeat (match type of H with
          | context [if ?c then _ else _] => destruct c eqn:?
          | context [match ?o with Some _ => _ | None => _ end] =>
              destruct o eqn:?
          end; cbn in H).

(** The exits of [gsp_app_new] other than [return app] leave the
    environment as it is. *)
Lemma new_body_env e found basename' path' xdg_position' r e' o :
  gsp_app_new_body X e found basename' path' xdg_position' = (r, e', o) ->
  r <> Returned -> e' = e.
Proof.
  unfold gsp_app_new_body. intros H Hr.
  destruct found as [p|]; cbn in H; split_body H; inversion H; subst;
    try reflexivity; now elim Hr.
Qed.

Lemma new_body_rejected e found basename' path' xdg_position' e' o :
  gsp_app_new_body X e found basename' path' xdg_position' = (Rejected, e', o) ->
  e' = e /\ o = found.
Proof.
  unfold gsp_app_new_body. intros H.
  destruct found as [p|]; cbn in H; split_body H; inversion H; subst;
    split; reflexivity.
Qed.

(** A file that loads and may be launched makes a new entry at any rank
    a [guint] can hold. *)
Lemma new_body_fresh_returns e basename' path' xdg_position' keyfile :
  g_key_file_load_from_file e (Some path') = Some keyfile ->
  gsp_app_can_launch keyfile = true ->
  xdg_position' <= G_MAXUINT ->
  exists p',
    gsp_app_new_body X e None basename' path' xdg_position'
      = (Returned, e, Some p').
Proof.
  intros Hl Hc Hp.
  destruct (gsp_app_new_body X e None basename' path' xdg_position')
    as [[r e'] o] eqn:E.
  unfold gsp_app_new_body in E. rewrite Hl, Hc in E. cbn [negb] in E.
  cbn in E. split_body E; inversion E; subst; eauto;
    exfalso;
    match goal with
    | H : _ && negb (Z.leb _ _) = true |- _ =>
        apply andb_true_iff in H; destruct H as [_ H];
        apply negb_true_iff, Z.leb_gt in H; cbn in H; lia
    end.
Qed.


End LoadingMore2.

Lemma set_app_same w a p : heap w !! a = Some p -> set_app w (env w) a p = w.
Proof.
  intros H. unfold set_app. rewrite insert_id by exact H.
  destruct w; reflexivity.
Qed.

Ltac last_conj H :=
  repeat match type of H with _ /\ _ => destruct H as [_ H] end.

Section LoadingWorld.

Variable X : Externals.

(** What [gsp_app_new] leaves alone. *)
Lemma gsp_app_new_frame
    (w : World) (path' : string) (xdg_position' : Z) :
  let w' := snd (gsp_app_new X w path' xdg_position') in
  files (env w') = files (env w)
  /\ denied (env w') = denied (env w)
  /\ dirs (env w') = dirs (env w)
  /\ sources (env w') = sources (env w)
  /\ next_source (env w') = next_source (env w)
  /\ apps w' = apps w.
Proof.
  unfold gsp_app_new.
  destruct (gsp_app_manager_find_app_with_basename w (g_path_get_basename path'))
    as [[a p]|].
  - destruct (gsp_app_new_body X (env w) (Some p) (g_path_get_basename path')
                path' xdg_position') as [[r e'] [p'|]] eqn:E;
      [|cbn; repeat split].
    destruct r;
      try (apply new_body_env in E; [subst e'|discriminate]; cbn; repeat split).
    apply new_body_returned in E. destruct E as (kf & E). 
    last_conj E. subst e'. cbn. repeat split.
  - destruct (gsp_app_new_body X (env w) None (g_path_get_basename path')
                path' xdg_position') as [[r e'] [p'|]] eqn:E;
      [|destruct r; cbn; repeat split].
    destruct r; try (cbn; repeat split; fail).
    apply new_body_returned in E. destruct E as (kf & E).
    last_conj E. subst e'. cbn. repeat split.
Qed.

(** X3: whatever its outcome, [gsp_app_new] writes and removes no file,
    arms and cancels no timer, and leaves the registry's list of entries
    as it is (a new entry is handed to the caller, not registered). *)
Theorem gsp_app_new_keeps_files_timers_and_registry
    (w : World) (path' : string) (xdg_position' : Z) :
  let w' := snd (gsp_app_new X w path' xdg_position') in
  files (env w') = files (env w)
  /\ denied (env w') = denied (env w)
  /\ dirs (env w') = dirs (env w)
  /\ sources (env w') = sources (env w)
  /\ next_source (env w') = next_source (env w)
  /\ apps w' = apps w.
Proof. apply gsp_app_new_frame. Qed.

(** X4: a call of [gsp_app_new] that is rejected (the file does not
    load, or may not be launched here) changes nothing at all. *)
Theorem gsp_app_new_rejected_changes_nothing
    (w : World) (path' : string) (xdg_position' : Z) :
  fst (fst (gsp_app_new X w path' xdg_position')) = Rejected ->
  gsp_app_new X w path' xdg_position' = (Rejected, None, w).
Proof.
  unfold gsp_app_new.
  destruct (gsp_app_manager_find_app_with_basename w (g_path_get_basename path'))
    as [[a p]|] eqn:Ef.
  - destruct (gsp_app_new_body X (env w) (Some p) (g_path_get_basename path')
                path' xdg_position') as [[r e'] o] eqn:E.
    destruct o as [p'|]; cbn; intros ->;
      apply new_body_rejected in E; destruct E as [-> Ho]; [|discriminate Ho].
    inversion Ho; subst. apply find_in_Some in Ef. destruct Ef as [Ha _].
    now rewrite set_app_same.
  - destruct (gsp_app_new_body X (env w) None (g_path_get_basename path')
                path' xdg_position') as [[r e'] o] eqn:E.
    destruct r, o; cbn; intros Hr; try discriminate Hr; reflexivity.
Qed.

(** X5: a file of a base name the registry does not know, which loads
    and may be launched, yields a new entry at the given rank: its
    fields are those of the file (hidden and no-display default to
    false, the delay to 0), its name is the command when the file's name
    is blank, it is clean with no timer, and its system rank is the
    given rank when that is a system directory and [G_MAXUINT] for the
    user directory.  The environment and the registry are unchanged. *)
Theorem gsp_app_new_makes_entry_from_file
    (w : World) (path' : string) (xdg_position' : Z) (keyfile : GKeyFile) :
  gsp_app_manager_find_app_with_basename w (g_path_get_basename path') = None ->
  g_key_file_load_from_file (env w) (Some path') = Some keyfile ->
  gsp_app_can_launch keyfile = true ->
  xdg_position' <= G_MAXUINT ->
  exists p,
    gsp_app_new X w path' xdg_position'
      = (Returned, Some (next_obj w),
         {| env := env w; heap := <[next_obj w := p]> (heap w);
            next_obj := S (next_obj w); apps := apps w |})
    /\ basename p = Some (g_path_get_basename path')
    /\ path p = Some path'
    /\ hidden p = gsp_key_file_get_boolean keyfile G_KEY_FILE_DESKTOP_KEY_HIDDEN false
    /\ nodisplay p
       = gsp_key_file_get_boolean keyfile G_KEY_FILE_DESKTOP_KEY_NO_DISPLAY false
    /\ name p = (if gsm_util_text_is_blank X (kf_name keyfile)
                 then kf_exec keyfile else kf_name keyfile)
    /\ exec p = kf_exec keyfile
    /\ comment p = kf_comment keyfile
    /\ icon p = kf_icon keyfile
    /\ delay p = gsp_key_file_get_delay keyfile
    /\ xdg_position p = xdg_position'
    /\ xdg_system_position p
       = (if Z.ltb 0 xdg_position' then xdg_position' else G_MAXUINT)
    /\ save_mask p = 0 /\ save_timeout p = 0
    /\ old_system_path p = None /\ skip_next_monitor_event p = false.
Proof.
  intros Hf Hl Hc Hp.
  destruct (new_body_fresh_returns X (env w) (g_path_get_basename path') path'
              xdg_position' keyfile Hl Hc Hp) as [p E].
  exists p. unfold gsp_app_new. rewrite Hf, E. split; [reflexivity|].
  apply new_body_returned in E. destruct E as (kf & Hl' & E).
  rewrite Hl in Hl'. inversion Hl'; subst kf.
  intuition congruence.
Qed.



(** X7: [gsp_app_new] never raises the system rank recorded for an
    entry it finds, nor changes its base name: on every exit but the
    failed assertion, [xdg_system_position] afterwards is at most what it
    was. *)
Theorem gsp_app_new_never_raises_system_position
    (w w' : World) (path' : string) (xdg_position' : Z) (a : nat)
    (p : GspAppPrivate) (r : NewOutcome) (ret : option nat) :
  gsp_app_manager_find_app_with_basename w (g_path_get_basename path')
    = Some (a, p) ->
  gsp_app_new X w path' xdg_position' = (r, ret, w') ->
  r <> AssertFailed ->
  exists p',
    heap w' !! a = Some p'
    /\ xdg_system_position p' <= xdg_system_position p
    /\ basename p' = basename p.
Proof.
  intros Hf H Hr. unfold gsp_app_new in H. rewrite Hf in H.
  pose proof (find_in_Some _ _ _ _ _ Hf) as [Ha _].
  destruct (gsp_app_new_body X (env w) (Some p) (g_path_get_basename path')
              path' xdg_position') as [[r0 e'] o] eqn:E.
  assert (Ho : exists p', o = Some p'
                 /\ xdg_system_position p' <= xdg_system_position p
                 /\ basename p' = basename p).
  { assert (r0 = r) by (destruct o; inversion H; reflexivity). subst r0.
    clear H. unfold gsp_app_new_body in E.
    destruct (Z.eqb (xdg_position p) xdg_position' && skip_next_monitor_event p).
    { inversion E; subst. eexists; split; [reflexivity|]. cbn. split; [lia|reflexivity]. }
    destruct (Z.ltb (xdg_position p) xdg_position'
              || negb (Z.eqb (save_timeout p) 0)).
    { inversion E; subst. eexists; split; [reflexivity|]. cbn. split; [lia|reflexivity]. }
    destruct (g_key_file_load_from_file (env w) (Some path')) as [kf|];
      [|inversion E; subst; eexists; split; [reflexivity|split; [lia|reflexivity]]].
    destruct (negb (gsp_app_can_launch kf));
      [inversion E; subst; eexists; split; [reflexivity|split; [lia|reflexivity]]|].
    cbn in E.
    destruct (Z.ltb 0 xdg_position') eqn:Ep; cbn [andb] in E.
    - match type of E with
      | context [negb (Z.leb _ ?s)] =>
          replace s with (xdg_system_position p) in E
            by (repeat case_if; repeat case_match; reflexivity);
          destruct (Z.leb xdg_position' (xdg_system_position p)) eqn:El
      end; cbn [negb] in E.
      + inversion E; subst. eexists; split; [reflexivity|].
        apply Z.leb_le in El.
        repeat case_if; repeat case_match; cbn; split; (exact El || reflexivity).
      + inversion E; subst. now elim Hr.
    - inversion E; subst. eexists; split; [reflexivity|].
      repeat case_if; repeat case_match; cbn; split; (lia || reflexivity). }
  destruct Ho as (p' & -> & Hle & Hb). inversion H; subst.
  exists p'. cbn. rewrite lookup_insert_eq. auto.
Qed.


End LoadingWorld.

(** ** Arming, editing and deleting *)

Lemma filter_live_sources l :
  List.filter (fun s => negb (Z.eqb (Z.pos s) 0)) l = l.
Proof.
  induction l as [|s l IH]; [reflexivity|].
  cbn [List.filter]. change (Z.eqb (Z.pos s) 0) with false.
  cbn [negb]. now rewrite IH.
Qed.

Lemma snd_let_pair {A B C} (f : A * B) (g : A -> B -> C) :
  snd (let '(a, b) := f in (g a b, b)) = snd f.
Proof. destruct f; reflexivity. Qed.

Lemma fst_let_pair {A B C} (f : A * B) (g : A -> B -> C) :
  fst (let '(a, b) := f in (g a b, b)) = g (fst f) (snd f).
Proof. destruct f; reflexivity. Qed.

Section EditingMore.

Variable X : Externals.

(** The fields [_gsp_app_queue_save] never touches. *)
Lemma queue_save_fields e p :
  let p' := snd (_gsp_app_queue_save X e p) in
  basename p' = basename p /\ hidden p' = hidden p
  /\ nodisplay p' = nodisplay p /\ name p' = name p /\ exec p' = exec p
  /\ comment p' = comment p /\ icon p' = icon p /\ delay p' = delay p
  /\ gicon p' = gicon p /\ description p' = description p
  /\ xdg_system_position p' = xdg_system_position p
  /\ save_mask p' = save_mask p
  /\ skip_next_monitor_event p' = skip_next_monitor_event p.
Proof.
  destruct p; unfold _gsp_app_queue_save; cbn.
  repeat (case_if; cbn); repeat split.
Qed.

(** What [_gsp_app_queue_save] does to the environment. *)
Lemma queue_save_env e p :
  let e' := fst (_gsp_app_queue_save X e p) in
  files e' = files e /\ denied e' = denied e /\ dirs e' = dirs e
  /\ signals e' = signals e
  /\ next_source e' = Pos.succ (next_source e)
  /\ sources e'
     = next_source e
       :: List.filter (fun s => negb (Z.eqb (Z.pos s) (save_timeout p)))
            (sources e).
Proof.
  unfold _gsp_app_queue_save.
  destruct (negb (Z.eqb (save_timeout p) 0)) eqn:Et; cbn; repeat split.
  apply negb_false_iff, Z.eqb_eq in Et. rewrite Et.
  now rewrite filter_live_sources.
Qed.

(** Where [_gsp_app_queue_save] leaves the entry. *)
Lemma queue_save_promotion (e : Env) (p : GspAppPrivate) :
  let p' := snd (_gsp_app_queue_save X e p) in
  xdg_position p' = 0
  /\ (xdg_position p = 0 ->
      path p' = path p /\ old_system_path p' = old_system_path p)
  /\ (xdg_position p <> 0 ->
      path p' = Some (user_autostart_file X (basename p))
      /\ old_system_path p'
         = match old_system_path p with
           | Some o => Some o
           | None => path p
           end)
  /\ name p' = name p /\ exec p' = exec p /\ comment p' = comment p
  /\ icon p' = icon p /\ hidden p' = hidden p /\ delay p' = delay p
  /\ description p' = description p /\ basename p' = basename p
  /\ xdg_system_position p' = xdg_system_position p
  /\ save_mask p' = save_mask p.
Proof.
  cbv zeta. split; [apply queue_save_promotes|].
  split; [|split].
  - intros H0. apply Z.eqb_eq in H0.
    unfold _gsp_app_queue_save.
    destruct (negb (Z.eqb (save_timeout p) 0));
      cbn -[user_autostart_file Z.eqb]; rewrite H0;
      cbn -[user_autostart_file Z.eqb]; split; reflexivity.
  - intros Hn. apply Z.eqb_neq in Hn.
    unfold _gsp_app_queue_save.
    destruct (negb (Z.eqb (save_timeout p) 0));
      cbn -[user_autostart_file Z.eqb]; rewrite Hn;
      destruct (old_system_path p) eqn:Ho;
      cbn -[user_autostart_file Z.eqb]; rewrite ?Ho; split; reflexivity.
  - pose proof (queue_save_fields e p) as H. cbv zeta in H. tauto.
Qed.

(** X9: arming a save brings the entry to the user directory.  The rank
    becomes 0; an entry that was elsewhere gets the path of its file in
    the user autostart directory, and its old path is recorded as the
    pending original path unless one is already recorded; an entry
    already at rank 0 keeps its path and pending original path.  No
    displayed field and no dirty bit changes. *)
Theorem queue_save_promotes_to_user_directory (e : Env) (p : GspAppPrivate) :
  let p' := snd (_gsp_app_queue_save X e p) in
  xdg_position p' = 0
  /\ (xdg_position p = 0 ->
      path p' = path p /\ old_system_path p' = old_system_path p)
  /\ (xdg_position p <> 0 ->
      path p' = Some (user_autostart_file X (basename p))
      /\ old_system_path p'
         = match old_system_path p with
           | Some o => Some o
           | None => path p
           end)
  /\ name p' = name p /\ exec p' = exec p /\ comment p' = comment p
  /\ icon p' = icon p /\ hidden p' = hidden p /\ delay p' = delay p
  /\ description p' = description p /\ basename p' = basename p
  /\ xdg_system_position p' = xdg_system_position p
  /\ save_mask p' = save_mask p.
Proof. apply queue_save_promotion. Qed.

(** X10: arming a save replaces the timer.  The entry's handle becomes
    the identifier GLib hands out, which is then a live source; the
    source of the previous handle is removed and no other source is
    touched; no file and no signal is involved. *)
Theorem queue_save_replaces_timer (e : Env) (p : GspAppPrivate) :
  let r := _gsp_app_queue_save X e p in
  save_timeout (snd r) = Z.pos (next_source e)
  /\ sources (fst r)
     = next_source e
       :: List.filter (fun s => negb (Z.eqb (Z.pos s) (save_timeout p)))
            (sources e)
  /\ next_source (fst r) = Pos.succ (next_source e)
  /\ files (fst r) = files e
  /\ signals (fst r) = signals e.
Proof.
  cbv zeta. pose proof (queue_save_env e p) as H. cbv zeta in H.
  split; [|tauto].
  destruct p; unfold _gsp_app_queue_save; cbn.
  repeat (case_if; cbn); reflexivity.
Qed.

(** X11: [gsp_app_set_hidden] with the value the entry has changes
    nothing; with the other value it stores it, marks the hidden field
    dirty, arms the save (rank 0) and emits one "changed" signal, all
    other displayed fields being kept. *)
Theorem set_hidden_effect (e : Env) (p : GspAppPrivate) (hidden' : bool) :
  gsp_app_set_hidden X e p (hidden p) = (e, p)
  /\ (hidden' <> hidden p ->
      let r := gsp_app_set_hidden X e p hidden' in
      hidden (snd r) = hidden'
      /\ mask_has (save_mask (snd r)) GSP_ASP_SAVE_MASK_HIDDEN = true
      /\ save_timeout (snd r) <> 0
      /\ xdg_position (snd r) = 0
      /\ name (snd r) = name p /\ exec (snd r) = exec p
      /\ comment (snd r) = comment p /\ delay (snd r) = delay p
      /\ signals (fst r) = (CHANGED, basename p) :: signals e
      /\ files (fst r) = files e).
Proof.
  split.
  - unfold gsp_app_set_hidden. now rewrite Bool.eqb_reflx.
  - intros Hne. cbv zeta. unfold gsp_app_set_hidden.
    replace (Bool.eqb hidden' (hidden p)) with false
      by (symmetry; apply Bool.eqb_false_iff; exact Hne).
    set (q := set_save_mask _ _).
    rewrite snd_let_pair, fst_let_pair.
    pose proof (queue_save_fields e q) as Hf. cbv zeta in Hf.
    pose proof (queue_save_env e q) as He. cbv zeta in He.
    destruct Hf as (Hb & Hh & _ & Hn & Hx & Hc & _ & Hd & _ & _ & _ & Hm & _).
    destruct He as (Hfi & _ & _ & Hsi & _).
    rewrite Hh, Hm, Hn, Hx, Hc, Hd.
    repeat split; try reflexivity.
    + apply mask_has_lor. discriminate.
    + apply queue_save_arms.
    + apply queue_save_promotes.
    + unfold _gsp_app_emit_changed. cbn. rewrite Hsi, Hb. reflexivity.
    + unfold _gsp_app_emit_changed. cbn. exact Hfi.
Qed.

(** The fields of an entry after [gsp_app_update]. *)
Lemma update_fields e p name' comment' exec' delay' :
  let p' := snd (gsp_app_update X e p name' comment' exec' delay') in
  name p' = (if _gsp_str_equal name' (name p) then name p else name')
  /\ comment p' = (if _gsp_str_equal comment' (comment p) then comment p
                   else comment')
  /\ exec p' = (if _gsp_str_equal exec' (exec p) then exec p else exec')
  /\ delay p' = delay'
  /\ hidden p' = hidden p /\ icon p' = icon p /\ basename p' = basename p
  /\ xdg_system_position p' = xdg_system_position p.
Proof.
  cbv zeta. unfold gsp_app_update.
  destruct (_gsp_str_equal name' (name p)); cbn;
  destruct (_gsp_str_equal comment' (comment p)); cbn;
  destruct (_gsp_str_equal exec' (exec p)); cbn;
  destruct (Z.eqb_spec delay' (delay p)) as [Ed|Ed]; cbn;
  rewrite ?snd_let_pair;
  try match goal with
      | |- context [_gsp_app_queue_save X e ?q] =>
          pose proof (queue_save_fields e q) as Hf; cbv zeta in Hf;
          destruct Hf as (Hb & Hh & _ & Hn & Hx & Hc & Hi & Hd & _ & _ & Hs & _);
          rewrite Hb, Hh, Hn, Hx, Hc, Hi, Hd, Hs; cbn
      end;
  repeat split; congruence.
Qed.

(** X12: after [gsp_app_update] each of name, comment and exec is the
    old value when the argument compares equal to it (blank-tolerant),
    and the argument otherwise; the delay is the argument; hidden, icon,
    base name and system rank are untouched. *)
Theorem update_stores_changed_arguments
    (e : Env) (p : GspAppPrivate) (name' comment' exec' : option string)
    (delay' : Z) :
  let p' := snd (gsp_app_update X e p name' comment' exec' delay') in
  name p' = (if _gsp_str_equal name' (name p) then name p else name')
  /\ comment p' = (if _gsp_str_equal comment' (comment p) then comment p
                   else comment')
  /\ exec p' = (if _gsp_str_equal exec' (exec p) then exec p else exec')
  /\ delay p' = delay'
  /\ hidden p' = hidden p /\ icon p' = icon p /\ basename p' = basename p
  /\ xdg_system_position p' = xdg_system_position p.
Proof. apply update_fields. Qed.

Lemma update_equal_values e p name' comment' exec' delay' :
  _gsp_str_equal name' (name p) = true ->
  _gsp_str_equal comment' (comment p) = true ->
  _gsp_str_equal exec' (exec p) = true ->
  delay' = delay p ->
  gsp_app_update X e p name' comment' exec' delay' = (e, p).
Proof.
  intros Hn Hc Hx Hd. unfold gsp_app_update.
  rewrite Hn. cbn. rewrite Hc. cbn. rewrite Hx. cbn.
  rewrite Hd, Z.eqb_refl. reflexivity.
Qed.

(** X13: [gsp_app_update] is idempotent: repeating an update with the
    same arguments, in whatever environment, changes nothing (no timer
    re-armed, no second signal). *)
Theorem update_twice_is_update_once
    (e e2 : Env) (p : GspAppPrivate) (name' comment' exec' : option string)
    (delay' : Z) :
  let p' := snd (gsp_app_update X e p name' comment' exec' delay') in
  gsp_app_update X e2 p' name' comment' exec' delay' = (e2, p').
Proof.
  cbv zeta.
  pose proof (update_fields e p name' comment' exec' delay') as H.
  cbv zeta in H. destruct H as (Hn & Hc & Hx & Hd & _).
  apply update_equal_values.
  - rewrite Hn. destruct (_gsp_str_equal name' (name p)) eqn:E;
      [exact E | apply _gsp_str_equal_refl].
  - rewrite Hc. destruct (_gsp_str_equal comment' (comment p)) eqn:E;
      [exact E | apply _gsp_str_equal_refl].
  - rewrite Hx. destruct (_gsp_str_equal exec' (exec p)) eqn:E;
      [exact E | apply _gsp_str_equal_refl].
  - now rewrite Hd.
Qed.

Lemma queue_save_files e p :
  files (fst (_gsp_app_queue_save X e p)) = files e.
Proof. pose proof (queue_save_env e p) as H. cbv zeta in H. tauto. Qed.

Lemma emit_changed_files e p : files (_gsp_app_emit_changed e p) = files e.
Proof. reflexivity. Qed.

(** X14: edits never write: [gsp_app_update], [gsp_app_set_hidden], the
    unhiding of a copied entry and [gsp_app_delete] of an entry that
    also exists in a system directory leave every file as it is (the
    write is left to the timer). *)
Theorem edits_leave_files_alone
    (e : Env) (p : GspAppPrivate) (name' comment' exec' : option string)
    (delay' : Z) (hidden' : bool) :
  files (fst (gsp_app_update X e p name' comment' exec' delay')) = files e
  /\ files (fst (gsp_app_set_hidden X e p hidden')) = files e
  /\ files (fst (gsp_app_copy_unhide X e p)) = files e
  /\ (Z.eqb (xdg_position p) 0 && Z.eqb (xdg_system_position p) G_MAXUINT = false ->
      files (fst (gsp_app_delete X e p)) = files e).
Proof.
  split; [|split; [|split]].
  - unfold gsp_app_update.
    destruct (_gsp_str_equal name' (name p)); cbn -[_gsp_app_queue_save];
    destruct (_gsp_str_equal comment' (comment p)); cbn -[_gsp_app_queue_save];
    destruct (_gsp_str_equal exec' (exec p)); cbn -[_gsp_app_queue_save];
    destruct (Z.eqb delay' (delay p)); cbn -[_gsp_app_queue_save];
    rewrite ?fst_let_pair, ?emit_changed_files;
    match goal with
    | |- files ?a = files ?a => reflexivity
    | _ => apply queue_save_files
    end.
  - unfold gsp_app_set_hidden. destruct (Bool.eqb hidden' (hidden p));
      [reflexivity|]. rewrite fst_let_pair, emit_changed_files.
    apply queue_save_files.
  - unfold gsp_app_copy_unhide. destruct (hidden p); [|reflexivity].
    apply queue_save_files.
  - intros H. unfold gsp_app_delete.
    rewrite H, fst_let_pair, emit_changed_files.
    apply queue_save_files.
Qed.

(** X15: deleting an entry that exists in the user directory only
    removes its file at once (no other file), cancels its timer, emits
    one "removed" signal, and leaves the entry hidden with its other
    displayed fields as they were. *)
Theorem delete_user_only_removes_file (e : Env) (p : GspAppPrivate) :
  xdg_position p = 0 -> xdg_system_position p = G_MAXUINT ->
  let r := gsp_app_delete X e p in
  files (fst r) = match path p with
                  | Some q => delete q (files e)
                  | None => files e
                  end
  /\ signals (fst r) = (REMOVED, basename p) :: signals e
  /\ sources (fst r)
     = List.filter (fun s => negb (Z.eqb (Z.pos s) (save_timeout p))) (sources e)
  /\ save_timeout (snd r) = 0
  /\ hidden (snd r) = true
  /\ name (snd r) = name p /\ exec (snd r) = exec p
  /\ comment (snd r) = comment p /\ path (snd r) = path p.
Proof.
  intros H0 Hs. cbv zeta. unfold gsp_app_delete. rewrite H0, Hs. cbn [Z.eqb andb].
  change (Z.eqb G_MAXUINT G_MAXUINT) with true. cbn [andb].
  destruct (negb (Z.eqb (save_timeout p) 0)) eqn:Et; cbn;
    rewrite g_remove_if_exists.
  - destruct (path p); cbn; repeat split.
  - apply negb_false_iff, Z.eqb_eq in Et. rewrite Et, filter_live_sources.
    destruct (path p); cbn; repeat split.
Qed.

(** X16: deleting an entry that also exists in a system directory keeps
    it and persists a hiding override: the entry is hidden, the hidden
    field is dirty, the save is armed at rank 0, one "changed" signal is
    emitted and none of "removed". *)
Theorem delete_with_system_copy_hides (e : Env) (p : GspAppPrivate) :
  Z.eqb (xdg_position p) 0 && Z.eqb (xdg_system_position p) G_MAXUINT = false ->
  let r := gsp_app_delete X e p in
  hidden (snd r) = true
  /\ mask_has (save_mask (snd r)) GSP_ASP_SAVE_MASK_HIDDEN = true
  /\ save_timeout (snd r) <> 0
  /\ xdg_position (snd r) = 0
  /\ xdg_system_position (snd r) = xdg_system_position p
  /\ name (snd r) = name p /\ exec (snd r) = exec p
  /\ signals (fst r) = (CHANGED, basename p) :: signals e.
Proof.
  intros H. cbv zeta. unfold gsp_app_delete. rewrite H.
  set (q := set_save_mask _ _).
  rewrite snd_let_pair, fst_let_pair.
  pose proof (queue_save_fields e q) as Hf. cbv zeta in Hf.
  pose proof (queue_save_env e q) as He. cbv zeta in He.
  destruct Hf as (Hb & Hh & _ & Hn & Hx & _ & _ & _ & _ & _ & Hsy & Hm & _).
  destruct He as (_ & _ & _ & Hsi & _).
  rewrite Hh, Hm, Hn, Hx, Hsy.
  repeat split; try reflexivity.
  - apply mask_has_lor. discriminate.
  - apply queue_save_arms.
  - apply queue_save_promotes.
  - unfold _gsp_app_emit_changed. cbn. rewrite Hsi, Hb. reflexivity.
Qed.

End EditingMore.

(** ** The flush, continued *)

Lemma lookup_set_files_other (e : Env) (m : gmap string FileData) :
  files (set_files m e) = m.
Proof. reflexivity. Qed.

Section FlushMore.

(** X17: a flush, whatever its outcome, changes no displayed field of
    the entry: name, exec, comment, icon, hidden, no-display, delay,
    description, base name and system rank are as before. *)
Theorem save_keeps_displayed_fields (e : Env) (p : GspAppPrivate) :
  let p' := snd (_gsp_app_save e p) in
  name p' = name p /\ exec p' = exec p /\ comment p' = comment p
  /\ icon p' = icon p /\ gicon p' = gicon p /\ hidden p' = hidden p
  /\ nodisplay p' = nodisplay p /\ delay p' = delay p
  /\ description p' = description p /\ basename p' = basename p
  /\ xdg_system_position p' = xdg_system_position p.
Proof.
  cbv zeta. unfold _gsp_app_save.
  destruct (_gsp_app_user_equal_system e p); [cbn; repeat split|].
  destruct (g_key_file_save_to_file e (save_document e p) (path p));
    cbn; repeat split.
Qed.

(** X18: a flush writes or removes no regular file other than the one
    at the entry's path: every other file is as before, and so are the
    timers, the signals, the manager's list of autostart directories and
    the list of unwritable paths.  (The creation of the user autostart
    directory by [_gsp_ensure_user_autostart_dir], line 390, is outside
    the model, which has files only.) *)
Theorem save_touches_only_its_own_file
    (e : Env) (p : GspAppPrivate) (q : string) :
  let e' := snd (fst (_gsp_app_save e p)) in
  (path p <> Some q -> files e' !! q = files e !! q)
  /\ sources e' = sources e /\ signals e' = signals e
  /\ denied e' = denied e /\ dirs e' = dirs e
  /\ next_source e' = next_source e.
Proof.
  cbv zeta. unfold _gsp_app_save.
  destruct (_gsp_app_user_equal_system e p).
  - rewrite g_remove_if_exists. destruct (path p) as [t|]; cbn.
    + split; [|repeat split]. intros Hne.
      apply lookup_delete_ne. congruence.
    + repeat split.
  - unfold g_key_file_save_to_file.
    destruct (path p) as [t|]; [|cbn; repeat split].
    destruct (write_denied e t); cbn; [repeat split|].
    split; [|repeat split]. intros Hne.
    apply lookup_insert_ne. congruence.
Qed.

(** X19: [gsp_app_dispose] does nothing to an entry with no save armed,
    and after it the timer handle is 0 in every case, the shadow-removal
    exit of the flush included. *)
Theorem dispose_clears_timer (e : Env) (p : GspAppPrivate) :
  (save_timeout p = 0 -> gsp_app_dispose e p = (e, p))
  /\ save_timeout (snd (gsp_app_dispose e p)) = 0.
Proof.
  unfold gsp_app_dispose. split.
  - intros ->. reflexivity.
  - destruct (Z.eqb_spec (save_timeout p) 0) as [E|N]; cbn [negb]; [exact E|].
    destruct (_gsp_app_save (g_source_remove e (save_timeout p))
                (set_save_timeout 0 p)) as [[o e'] p'] eqn:Es.
    cbn. destruct o.
    + apply save_shadow_keeps_timer in Es. exact Es.
    + apply save_write_clears_timer in Es; [exact Es | discriminate].
    + apply save_write_clears_timer in Es; [exact Es | discriminate].
Qed.

(** X20: the file a successful flush writes is the base document with
    the dirty fields laid over it.  Read back, it gives the entry's
    hidden flag and delay when those bits are set, and the entry's name,
    comment and exec when their bits are set and the value is not
    [NULL]; a field whose bit is clear, the icon, the show-in lists and
    the keys the entry never reads are those of the base document. *)
Theorem save_written_document
    (e e' : Env) (p p' : GspAppPrivate) (base : GKeyFile) :
  _gsp_app_save e p = (Written, e', p') ->
  g_key_file_load_from_file e (save_use_path p) = Some base ->
  exists keyfile,
    g_key_file_load_from_file e' (path p) = Some keyfile
    /\ kf_hidden keyfile
       = (if mask_has (save_mask p) GSP_ASP_SAVE_MASK_HIDDEN
          then Some (hidden p) else kf_hidden base)
    /\ kf_delay keyfile
       = (if mask_has (save_mask p) GSP_ASP_SAVE_MASK_DELAY
          then Some (delay p) else kf_delay base)
    /\ kf_name keyfile
       = (if mask_has (save_mask p) GSP_ASP_SAVE_MASK_NAME && negb (is_null (name p))
          then name p else kf_name base)
    /\ kf_comment keyfile
       = (if mask_has (save_mask p) GSP_ASP_SAVE_MASK_COMMENT
             && negb (is_null (comment p))
          then comment p else kf_comment base)
    /\ kf_exec keyfile
       = (if mask_has (save_mask p) GSP_ASP_SAVE_MASK_EXEC && negb (is_null (exec p))
          then exec p else kf_exec base)
    /\ kf_icon keyfile = kf_icon base
    /\ kf_nodisplay keyfile = kf_nodisplay base
    /\ kf_only_show_in keyfile = kf_only_show_in base
    /\ kf_not_show_in keyfile = kf_not_show_in base
    /\ kf_other keyfile = kf_other base.
Proof.
  intros Hs Hb. unfold _gsp_app_save in Hs.
  destruct (_gsp_app_user_equal_system e p); [discriminate Hs|].
  unfold g_key_file_save_to_file in Hs.
  destruct (path p) as [t|]; [|discriminate Hs].
  destruct (write_denied e t); [discriminate Hs|].
  inversion Hs; subst; clear Hs.
  exists (save_document e p). split.
  - cbn. now rewrite lookup_insert_eq.
  - unfold save_document.
    destruct (save_use_path p) as [u|]; [|discriminate Hb].
    rewrite Hb.
    destruct (mask_has (save_mask p) GSP_ASP_SAVE_MASK_HIDDEN),
             (mask_has (save_mask p) GSP_ASP_SAVE_MASK_NAME),
             (mask_has (save_mask p) GSP_ASP_SAVE_MASK_COMMENT),
             (mask_has (save_mask p) GSP_ASP_SAVE_MASK_EXEC),
             (mask_has (save_mask p) GSP_ASP_SAVE_MASK_DELAY),
             (name p), (comment p), (exec p); cbn; repeat split.
Qed.

End FlushMore.

Lemma mask_all_has_every_bit :
  mask_has (Z.lor 0 GSP_ASP_SAVE_MASK_ALL) GSP_ASP_SAVE_MASK_HIDDEN = true
  /\ mask_has (Z.lor 0 GSP_ASP_SAVE_MASK_ALL) GSP_ASP_SAVE_MASK_NAME = true
  /\ mask_has (Z.lor 0 GSP_ASP_SAVE_MASK_ALL) GSP_ASP_SAVE_MASK_COMMENT = true
  /\ mask_has (Z.lor 0 GSP_ASP_SAVE_MASK_ALL) GSP_ASP_SAVE_MASK_EXEC = true
  /\ mask_has (Z.lor 0 GSP_ASP_SAVE_MASK_ALL) GSP_ASP_SAVE_MASK_DELAY = true.
Proof. repeat split. Qed.

Lemma GspAppPrivate_ext p q :
  basename p = basename q -> path p = path q -> hidden p = hidden q ->
  nodisplay p = nodisplay q -> name p = name q -> exec p = exec q ->
  comment p = comment q -> icon p = icon q -> delay p = delay q ->
  gicon p = gicon q -> description p = description q ->
  xdg_position p = xdg_position q ->
  xdg_system_position p = xdg_system_position q ->
  save_timeout p = save_timeout q -> save_mask p = save_mask q ->
  old_system_path p = old_system_path q ->
  skip_next_monitor_event p = skip_next_monitor_event q ->
  p = q.
Proof. destruct p, q; cbn; intros; subst; reflexivity. Qed.

(** The document written for an entry with every field dirty when its
    base document cannot be loaded. *)
Lemma save_document_all_dirty e p u :
  save_use_path p = Some u ->
  g_key_file_load_from_file e (Some u) = None ->
  save_mask p = Z.lor 0 GSP_ASP_SAVE_MASK_ALL ->
  let keyfile := save_document e p in
  kf_hidden keyfile = Some (hidden p) /\ kf_name keyfile = name p
  /\ kf_comment keyfile = comment p /\ kf_exec keyfile = exec p
  /\ kf_delay keyfile = Some (delay p) /\ kf_icon keyfile = None
  /\ kf_nodisplay keyfile = None /\ kf_only_show_in keyfile = None
  /\ kf_not_show_in keyfile = None.
Proof.
  intros Hu Hl Hm. cbv zeta. unfold save_document.
  destruct mask_all_has_every_bit as (M1 & M2 & M3 & M4 & M5).
  rewrite Hu, Hl, Hm, M1, M2, M3, M4, M5.
  destruct (name p), (comment p), (exec p); cbn; repeat split.
Qed.

Section RoundTrip.

Variable X : Externals.

Lemma description_from_fields a b :
  name a = name b -> exec a = exec b -> comment a = comment b ->
  description (_gsp_app_update_description X a)
  = description (_gsp_app_update_description X b).
Proof.
  intros Hn Hx Hc. unfold _gsp_app_update_description. cbn.
  now rewrite Hn, Hx, Hc.
Qed.

(** The entry and the environment [gsp_app_create] starts with. *)
Lemma create_fill_result e basename' name' comment' exec' delay' :
  let r := gsp_app_create_fill X e basename' name' comment' exec' delay' in
  path (snd r) = Some (user_autostart_file X (Some basename'))
  /\ hidden (snd r) = false /\ nodisplay (snd r) = false
  /\ icon (snd r) = None /\ gicon (snd r) = None
  /\ old_system_path (snd r) = None
  /\ skip_next_monitor_event (snd r) = false
  /\ description (snd r) = description (_gsp_app_update_description X (snd r))
  /\ files (fst r) = files e /\ denied (fst r) = denied e
  /\ dirs (fst r) = dirs e /\ signals (fst r) = signals e
  /\ sources (fst r) = next_source e :: sources e.
Proof.
  unfold gsp_app_create_fill, _gsp_app_queue_save.
  cbn -[user_autostart_file].
  destruct (gsm_util_text_is_blank X name'); cbn -[user_autostart_file];
    repeat split.
Qed.

(** The flush of a filled-in new entry and the body of the load that
    follows. *)
Lemma create_fill_flush_load
    (e : Env) (basename' : string) (name' comment' exec' : option string)
    (delay' : Z) :
  gsm_util_text_is_blank X exec' = false ->
  gsp_app_manager_get_dir (dirs e) G_MAXUINT = None ->
  files e !! user_autostart_file X (Some basename') = None ->
  write_denied e (user_autostart_file X (Some basename')) = false ->
  let created := gsp_app_create_fill X e basename' name' comment' exec' delay' in
  exists e' p',
    _gsp_app_save (fst created) (snd created) = (Written, e', p')
    /\ gsp_app_new_body X e' None basename'
         (user_autostart_file X (Some basename')) 0
       = (Returned, e', Some (set_skip_next_monitor_event false p')).
Proof.
  intros Hx Hd Hf Hw. cbv zeta.
  set (file := user_autostart_file X (Some basename')) in *.
  pose proof (create_fill_fields X e basename' name' comment' exec' delay') as F1.
  pose proof (create_fill_result e basename' name' comment' exec' delay') as F2.
  cbv zeta in F1, F2. fold file in F2.
  destruct (gsp_app_create_fill X e basename' name' comment' exec' delay')
    as [e1 q]. cbn [fst snd] in *.
  destruct F1 as (Qb & Qn & Qx & Qc & Qd & Qp & Qs & Qm & Qt).
  destruct F2 as (Qpath & Qh & Qnd & Qi & Qg & Qo & Qk & Qdesc
                  & Ef & Ede & Edi & _ & _).
  assert (Hblank : gsm_util_text_is_blank X (name q) = false).
  { rewrite Qn. destruct (gsm_util_text_is_blank X name') eqn:En; assumption. }
  assert (Hu : save_use_path q = Some file).
  { unfold save_use_path. now rewrite Qo. }
  assert (Hl : g_key_file_load_from_file e1 (Some file) = None).
  { unfold g_key_file_load_from_file. now rewrite Ef, Hf. }
  pose proof (save_document_all_dirty e1 q file Hu Hl Qm) as K. cbv zeta in K.
  destruct K as (Kh & Kn & Kc & Kx & Kd & Ki & Knd & Ko & Kno).
  assert (Hsave : _gsp_app_save e1 q
            = (Written,
               set_files (<[file := Desktop (save_document e1 q)]> (files e1)) e1,
               set_save_timeout 0
                 (_gsp_app_save_done_success
                    (set_skip_next_monitor_event true q)))).
  { unfold _gsp_app_save, _gsp_app_user_equal_system.
    rewrite Qs, Edi, Hd. unfold g_key_file_save_to_file, write_denied.
    rewrite Qpath, Ede. unfold write_denied in Hw. now rewrite Hw. }
  eexists _, _. split; [exact Hsave|].
  set (e2 := set_files _ e1).
  assert (Hl2 : g_key_file_load_from_file e2 (Some file)
                = Some (save_document e1 q)).
  { unfold g_key_file_load_from_file, e2.
    rewrite lookup_set_files_other. now rewrite lookup_insert_eq. }
  assert (Hc2 : gsp_app_can_launch (save_document e1 q) = true).
  { unfold gsp_app_can_launch, g_key_file_get_string_list.
    now rewrite Ko, Kno. }
  destruct (new_body_fresh_returns X e2 basename' file 0 _ Hl2 Hc2) as [p3 E];
    [unfold G_MAXUINT; lia|].
  rewrite E. f_equal. f_equal.
  apply new_body_returned in E. destruct E as (kf & Hl3 & E).
  rewrite Hl2 in Hl3. inversion Hl3; subst kf; clear Hl3.
  destruct E as (_ & Rpath & Rh & Rnd & Rx & Rn & Rc & Rd & Ri & Rg & Rdesc
                 & Rp & Rs & Rt & Ro & Rk & Rm & Rb & _).
  apply GspAppPrivate_ext; cbn.
  - now rewrite Rb, Qb.
  - now rewrite Rpath, Qpath.
  - rewrite Rh, Qh. unfold gsp_key_file_get_boolean. now rewrite Kh, Qh.
  - rewrite Rnd, Qnd. unfold gsp_key_file_get_boolean. now rewrite Knd.
  - rewrite Rn, Kn, Hblank. reflexivity.
  - now rewrite Rx, Kx.
  - now rewrite Rc, Kc.
  - now rewrite Ri, Ki, Qi.
  - rewrite Rd. unfold gsp_key_file_get_delay. now rewrite Kd.
  - now rewrite Rg, Ki, Qg.
  - rewrite Rdesc, Qdesc. apply description_from_fields.
    + rewrite Rn, Kn, Hblank. reflexivity.
    + now rewrite Rx, Kx.
    + now rewrite Rc, Kc.
  - now rewrite Rp, Qp.
  - rewrite Rs, Qs. reflexivity.
  - exact Rt.
  - exact Rm.
  - exact Ro.
  - exact Rk.
Qed.

(** X21: a launcher that is created, flushed and loaded again is the
    same launcher.  [gsp_app_create] is given a name, a comment and a
    command that are not [NULL]; the base name found is one the user
    directory has no file for, and the write goes through.  Then the
    flush of the created entry writes its file, and [gsp_app_new] on that
    file at rank 0, in a registry that does not know the name (a later
    session), returns a new entry equal to the flushed one in every field
    but the suppression flag. *)
Theorem create_flush_load_round_trip
    (w : World) (name' comment' exec' : string) (delay' : Z)
    (argv0 : string) (rest : list string) (basename' : string) :
  gsm_util_text_is_blank X (Some exec') = false ->
  g_shell_parse_argv X exec' = Some (argv0, rest) ->
  _gsp_find_free_basename X w argv0 = Some basename' ->
  g_path_get_basename (user_autostart_file X (Some basename')) = basename' ->
  gsp_app_manager_get_dir (dirs (env w)) G_MAXUINT = None ->
  files (env w) !! user_autostart_file X (Some basename') = None ->
  write_denied (env w) (user_autostart_file X (Some basename')) = false ->
  let w1 := gsp_app_create X w (Some name') (Some comment') (Some exec') delay' in
  exists p e' p',
    heap w1 !! next_obj w = Some p
    /\ path p = Some (user_autostart_file X (Some basename'))
    /\ _gsp_app_save (env w1) p = (Written, e', p')
    /\ forall w2,
         gsp_app_manager_find_app_with_basename w2 basename' = None ->
         gsp_app_new X (set_env w2 e') (user_autostart_file X (Some basename')) 0
         = (Returned, Some (next_obj w2),
            {| env := e';
               heap := <[next_obj w2 := set_skip_next_monitor_event false p']>
                         (heap w2);
               next_obj := S (next_obj w2); apps := apps w2 |}).
Proof.
  intros Hb Hp Hf Hbase Hd Hfile Hw. cbv zeta.
  destruct (create_fill_flush_load (env w) basename' (Some name')
              (Some comment') (Some exec') delay' Hb Hd Hfile Hw)
    as (e' & p' & Hs & Hn).
  pose proof (create_fill_result (env w) basename' (Some name')
                (Some comment') (Some exec') delay') as F.
  cbv zeta in F. destruct F as (Hpath & _).
  unfold gsp_app_create. rewrite Hb, Hp, Hf.
  destruct (gsp_app_create_fill X (env w) basename' (Some name')
              (Some comment') (Some exec') delay') as [e1 q].
  cbn [fst snd] in *.
  exists q, e', p'. cbn [add_new_app heap env].
  rewrite lookup_insert_eq.
  split; [reflexivity|]. split; [exact Hpath|]. split; [exact Hs|].
  intros w2 Hw2. unfold gsp_app_new. rewrite Hbase.
  change (gsp_app_manager_find_app_with_basename (set_env w2 e') basename')
    with (gsp_app_manager_find_app_with_basename w2 basename').
  rewrite Hw2. cbn [env set_env]. rewrite Hn. reflexivity.
Qed.

End RoundTrip.

(** ** The search for a free base name *)

Lemma string_rev_acc_app acc s t :
  string_rev_acc acc (s ++ t) = string_rev_acc (string_rev_acc acc s) t.
Proof.
  revert acc. induction s as [|c s IH]; intros acc; [reflexivity|].
  change (string_rev_acc (String c acc) (s ++ t)
          = string_rev_acc (string_rev_acc (String c acc) s) t).
  apply IH.
Qed.

Lemma string_append_assoc (s t u : string) : (s ++ t) ++ u = s ++ (t ++ u).
Proof.
  induction s as [|c s IH]; [reflexivity|].
  change (String c ((s ++ t) ++ u) = String c (s ++ (t ++ u))).
  f_equal. exact IH.
Qed.

Lemma string_rev_acc_acc acc s :
  string_rev_acc acc s = string_rev_acc EmptyString s ++ acc.
Proof.
  revert acc. induction s as [|c s IH]; intros acc; [reflexivity|].
  cbn [string_rev_acc].
  rewrite IH, (IH (String c EmptyString)).
  rewrite string_append_assoc. reflexivity.
Qed.

Lemma prefix_append u v : String.prefix u (u ++ v) = true.
Proof.
  induction u as [|c u IH]; [destruct v; reflexivity|].
  change (String.prefix (String c u) (String c (u ++ v)) = true).
  cbn [String.prefix].
  destruct (ascii_dec c c) as [_|N]; [exact IH | now elim N].
Qed.

Lemma g_str_has_suffix_append s suffix :
  g_str_has_suffix (s ++ suffix) suffix = true.
Proof.
  unfold g_str_has_suffix.
  rewrite string_rev_acc_app, (string_rev_acc_acc (string_rev_acc _ s)).
  apply prefix_append.
Qed.

Lemma length_append s t :
  String.length (s ++ t) = (String.length s + String.length t)%nat.
Proof.
  induction s as [|c s IH]; [reflexivity|].
  change (S (String.length (s ++ t))
          = S (String.length s + String.length t)%nat).
  f_equal. exact IH.
Qed.

Lemma substring_append s t :
  String.substring 0 (String.length s) (s ++ t) = s.
Proof.
  induction s as [|c s IH]; [destruct t; reflexivity|].
  change (String c (String.substring 0 (String.length s) (s ++ t)) = String c s).
  f_equal. exact IH.
Qed.

Lemma g_strndup_strips_suffix s suffix :
  g_strndup (s ++ suffix)
    (String.length (s ++ suffix) - String.length suffix)%nat = s.
Proof.
  unfold g_strndup. rewrite length_append.
  replace (String.length s + String.length suffix - String.length suffix)%nat
    with (String.length s) by lia.
  apply substring_append.
Qed.

Section FreeName.

Variable X : Externals.

Lemma find_free_basename_unfold w suggested :
  _gsp_find_free_basename X w suggested
  = (let '(i, basename') :=
       find_free_loop w (free_base_path X suggested)
         (Z.to_nat _GSP_FIND_MAX_TRY) 1
         (candidate (free_base_path X suggested) 0)
         (g_path_get_basename (candidate (free_base_path X suggested) 0)) in
     if Z.eqb i _GSP_FIND_MAX_TRY then None else Some basename').
Proof.
  unfold _gsp_find_free_basename, free_base_path.
  destruct (g_str_has_suffix suggested ".desktop"); reflexivity.
Qed.

(** What the loop of lines 863-872 computes, started at a candidate. *)
Lemma find_free_loop_spec w base_path n :
  forall i,
    1 <= i <= _GSP_FIND_MAX_TRY ->
    let r := find_free_loop w base_path n i (candidate base_path (i - 1))
               (g_path_get_basename (candidate base_path (i - 1))) in
    i <= fst r <= _GSP_FIND_MAX_TRY
    /\ snd r = g_path_get_basename (candidate base_path (fst r - 1))
    /\ (forall j, i - 1 <= j < fst r - 1 ->
          candidate_taken w (candidate base_path j) = true)
    /\ (_GSP_FIND_MAX_TRY - i < Z.of_nat n -> fst r < _GSP_FIND_MAX_TRY ->
        candidate_taken w (candidate base_path (fst r - 1)) = false).
Proof.
  induction n as [|n IH]; intros i Hi; cbv zeta.
  - cbn [find_free_loop fst snd]. repeat split; try lia;
      intros Hn; cbn in Hn; lia.
  - cbn [find_free_loop].
    fold (candidate_taken w (candidate base_path (i - 1))).
    destruct (candidate_taken w (candidate base_path (i - 1))) eqn:Et;
      cbn [andb].
    + destruct (Z.ltb_spec i _GSP_FIND_MAX_TRY) as [Hlt|Hge].
      * assert (Hc : base_path ++ "-" ++ printf_d i ++ ".desktop"
                     = candidate base_path (i + 1 - 1)).
        { unfold candidate. replace (i + 1 - 1) with i by lia.
          replace (Z.eqb i 0) with false; [reflexivity|].
          symmetry. apply Z.eqb_neq. lia. }
        rewrite Hc.
        specialize (IH (i + 1) ltac:(lia)). cbv zeta in IH.
        destruct IH as (H1 & H2 & H3 & H4).
        repeat split; try lia; [exact H2| |].
        -- intros j Hj. destruct (Z.eq_dec j (i - 1)) as [->|Hne];
             [exact Et | apply H3; lia].
        -- intros Hn. apply H4. lia.
      * cbn [fst snd]. repeat split; try lia.
    + cbn [fst snd]. repeat split; try lia. intros _ _. exact Et.
Qed.

(** X22: [_gsp_find_free_basename] returns the base name of the first
    candidate (name.desktop, name-1.desktop, ...) that is not both known
    to the registry and present as a file, provided one of the first
    9999 candidates is such; it returns [NULL] exactly when all of these
    9999 are both registered and present. *)
Theorem find_free_basename_spec (w : World) (suggested : string) :
  let base_path := free_base_path X suggested in
  (exists k,
      0 <= k < _GSP_FIND_MAX_TRY - 1
      /\ (forall j, 0 <= j < k ->
            candidate_taken w (candidate base_path j) = true)
      /\ candidate_taken w (candidate base_path k) = false
      /\ _gsp_find_free_basename X w suggested
         = Some (g_path_get_basename (candidate base_path k)))
  \/ ((forall j, 0 <= j < _GSP_FIND_MAX_TRY - 1 ->
         candidate_taken w (candidate base_path j) = true)
      /\ _gsp_find_free_basename X w suggested = None).
Proof.
  cbv zeta. rewrite find_free_basename_unfold.
  pose proof (find_free_loop_spec w (free_base_path X suggested)
                (Z.to_nat _GSP_FIND_MAX_TRY) 1) as H.
  cbv zeta in H. change (1 - 1) with 0 in H.
  specialize (H ltac:(unfold _GSP_FIND_MAX_TRY; lia)).
  destruct (find_free_loop w (free_base_path X suggested)
              (Z.to_nat _GSP_FIND_MAX_TRY) 1
              (candidate (free_base_path X suggested) 0)
              (g_path_get_basename (candidate (free_base_path X suggested) 0)))
    as [i b]. cbn [fst snd] in H.
  destruct H as (H1 & H2 & H3 & H4).
  destruct (Z.eqb_spec i _GSP_FIND_MAX_TRY) as [E|N].
  - right. split; [|reflexivity]. intros j Hj. apply H3. lia.
  - left. exists (i - 1). repeat split; try lia.
    + intros j Hj. apply H3. lia.
    + apply H4; [unfold _GSP_FIND_MAX_TRY; lia | lia].
    + now rewrite H2.
Qed.

(** X23: a suggestion given with the ".desktop" suffix is searched like
    the same suggestion without it (the suffix is not doubled). *)
Theorem find_free_basename_ignores_desktop_suffix
    (w : World) (suggested : string) :
  g_str_has_suffix suggested ".desktop" = false ->
  _gsp_find_free_basename X w (suggested ++ ".desktop")
  = _gsp_find_free_basename X w suggested.
Proof.
  intros Hs. rewrite !find_free_basename_unfold.
  assert (Hb : free_base_path X (suggested ++ ".desktop")
               = free_base_path X suggested).
  { unfold free_base_path.
    rewrite g_str_has_suffix_append, Hs, g_strndup_strips_suffix.
    reflexivity. }
  now rewrite Hb.
Qed.

(** X24: [gsp_app_create] gives up without any effect when the command
    is blank, when it cannot be split into words, or when no free base
    name is found. *)
Theorem create_failure_changes_nothing
    (w : World) (name' comment' exec' : option string) (delay' : Z) :
  (gsm_util_text_is_blank X exec' = true
   \/ (exists command_line,
         exec' = Some command_line
         /\ (g_shell_parse_argv X command_line = None
             \/ exists argv0 rest,
                  g_shell_parse_argv X command_line = Some (argv0, rest)
                  /\ _gsp_find_free_basename X w argv0 = None))) ->
  gsp_app_create X w name' comment' exec' delay' = w.
Proof.
  unfold gsp_app_create.
  intros [Hb | (c & -> & [Hp | (a & r & Hp & Hf)])].
  - now rewrite Hb.
  - rewrite Hp. destruct (gsm_util_text_is_blank X (Some c)); reflexivity.
  - rewrite Hp, Hf. destruct (gsm_util_text_is_blank X (Some c)); reflexivity.
Qed.

(** X25: a creation that goes through registers exactly one new entry,
    at the head of the registry, and writes nothing yet: the files and
    the signals are as before, the new entry is in the user directory
    (rank 0, no system rank) with every field dirty and its save armed
    on the one timer that was added, and the entries already in the heap
    are untouched. *)
Theorem create_registers_armed_entry
    (w : World) (name' comment' : option string) (exec' : string) (delay' : Z)
    (argv0 : string) (rest : list string) (basename' : string) :
  gsm_util_text_is_blank X (Some exec') = false ->
  g_shell_parse_argv X exec' = Some (argv0, rest) ->
  _gsp_find_free_basename X w argv0 = Some basename' ->
  let w' := gsp_app_create X w name' comment' (Some exec') delay' in
  exists p,
    apps w' = next_obj w :: apps w
    /\ heap w' = <[next_obj w := p]> (heap w)
    /\ next_obj w' = S (next_obj w)
    /\ files (env w') = files (env w)
    /\ signals (env w') = signals (env w)
    /\ sources (env w') = next_source (env w) :: sources (env w)
    /\ save_timeout p = Z.pos (next_source (env w))
    /\ save_mask p = GSP_ASP_SAVE_MASK_ALL
    /\ xdg_position p = 0 /\ xdg_system_position p = G_MAXUINT
    /\ path p = Some (user_autostart_file X (Some basename'))
    /\ hidden p = false
    /\ exec p = Some exec' /\ comment p = comment' /\ delay p = delay'.
Proof.
  intros Hb Hp Hf. cbv zeta. unfold gsp_app_create. rewrite Hb, Hp, Hf.
  pose proof (create_fill_fields X (env w) basename' name' comment'
                (Some exec') delay') as F1.
  pose proof (create_fill_result X (env w) basename' name' comment'
                (Some exec') delay') as F2.
  cbv zeta in F1, F2.
  destruct (gsp_app_create_fill X (env w) basename' name' comment'
              (Some exec') delay') as [e p]. cbn [fst snd] in *.
  exists p. cbn. intuition congruence.
Qed.

End FreeName.

(** ** Copying a desktop file *)

Lemma g_file_copy_Some e src dst e' :
  g_file_copy e src dst = Some e' ->
  exists d,
    files e !! src = Some d /\ files e !! dst = None
    /\ e' = set_files (<[dst := d]> (files e)) e.
Proof.
  unfold g_file_copy. destruct (files e !! src) as [d|]; [|discriminate].
  unfold g_file_test_exists. case_bool_decide as Hex; [discriminate|].
  destruct (write_denied e dst); [discriminate|].
  intros H; inversion H; subst. exists d. repeat split.
  destruct (files e !! dst) eqn:E; [|reflexivity]. elim Hex. eauto.
Qed.

Section CopyMore.

Variable X : Externals.
Variable G : Gio.


(** X26: a copy that fails leaves no file behind: whatever the reason
    ([NULL] base name, no free name, failed copy, or a copied file that
    [gsp_app_new] does not return an entry for, which is removed again),
    the files afterwards are the files before. *)
Theorem copy_failure_leaves_no_file (w : World) (uri : string) :
  fst (gsp_app_copy_desktop_file X G w uri) = false ->
  files (env (snd (gsp_app_copy_desktop_file X G w uri))) = files (env w).
Proof.
  unfold gsp_app_copy_desktop_file.
  destruct (g_file_get_basename G (g_file_new_for_uri G uri)) as [sb|];
    [|reflexivity].
  destruct (_gsp_find_free_basename X w sb) as [db|]; [|reflexivity].
  set (dst := g_build_filename _).
  destruct (g_file_copy (env w) (g_file_new_for_uri G uri) dst) as [e1|] eqn:Ec;
    [|reflexivity].
  apply g_file_copy_Some in Ec. destruct Ec as (d & _ & Hnone & ->).
  pose proof (gsp_app_new_frame X (set_env w (set_files (<[dst:=d]> (files (env w)))
                                                (env w))) dst 0) as Hfr.
  cbv zeta in Hfr. destruct Hfr as (Hfiles & _).
  destruct (gsp_app_new X _ dst 0) as [[r [a|]] w2]; cbn [fst snd] in *.
  - discriminate.
  - intros _. cbn. rewrite Hfiles. cbn.
    apply delete_insert_id. exact Hnone.
Qed.


End CopyMore.

(** ** The further properties at work on the sample states *)

Lemma gsp_app_new_rejected_changes_nothing_witness :
  gsp_app_new posix (loaded_world sample_env) "/nowhere/zap.desktop" 1
  = (Rejected, None, loaded_world sample_env).
Proof.
  apply (gsp_app_new_rejected_changes_nothing posix (loaded_world sample_env)
           "/nowhere/zap.desktop" 1).
  vm_compute. reflexivity.
Defined.

Lemma gsp_app_new_makes_entry_from_file_witness :
  exists p,
    snd (fst (gsp_app_new posix (empty_world baz_env) "/opt/baz.desktop" 2))
      = Some 0%nat
    /\ name p = Some "baz" /\ hidden p = true /\ delay p = 7
    /\ xdg_system_position p = 2.
Proof.
  destruct (gsp_app_new_makes_entry_from_file posix (empty_world baz_env)
              "/opt/baz.desktop" 2 baz_file)
    as (p & E & _ & _ & Hh & _ & Hn & _ & _ & _ & Hd & _ & Hs & _).
  - vm_compute. reflexivity.
  - vm_compute. reflexivity.
  - vm_compute. reflexivity.
  - unfold G_MAXUINT. lia.
  - exists p. rewrite E, Hn, Hh, Hd, Hs. repeat split.
Defined.


Lemma gsp_app_new_never_raises_system_position_witness :
  exists p',
    heap (snd (gsp_app_new posix (loaded_world sample_env)
                 "/usr/share/mate/autostart/foo.desktop" 3)) !! 0%nat = Some p'
    /\ xdg_system_position p' <= 1.
Proof.
  destruct (gsp_app_new_never_raises_system_position posix
              (loaded_world sample_env)
              (snd (gsp_app_new posix (loaded_world sample_env)
                      "/usr/share/mate/autostart/foo.desktop" 3))
              "/usr/share/mate/autostart/foo.desktop" 3 0
              (entry_of (loaded_world sample_env) 0) Duplicate None)
    as (p' & Hh & Hle & _).
  - vm_compute. reflexivity.
  - vm_compute. reflexivity.
  - discriminate.
  - exists p'. split; [exact Hh | exact Hle].
Defined.


Lemma queue_save_promotes_to_user_directory_witness :
  let p := entry_of (loaded_world sample_env) 0 in
  let p' := snd (_gsp_app_queue_save posix sample_env p) in
  path p' = Some (user_autostart_file posix (basename p))
  /\ old_system_path p' = Some "/etc/xdg/autostart/foo.desktop".
Proof.
  cbv zeta.
  destruct (queue_save_promotes_to_user_directory posix sample_env
              (entry_of (loaded_world sample_env) 0))
    as (_ & _ & H & _).
  destruct H as [Hp Ho]; [vm_compute; discriminate|].
  split; [exact Hp|]. rewrite Ho. vm_compute. reflexivity.
Defined.

Lemma set_hidden_effect_witness :
  let p := entry_of (loaded_world sample_env) 0 in
  hidden (snd (gsp_app_set_hidden posix sample_env p true)) = true
  /\ xdg_position (snd (gsp_app_set_hidden posix sample_env p true)) = 0.
Proof.
  cbv zeta.
  destruct (set_hidden_effect posix sample_env
              (entry_of (loaded_world sample_env) 0) true) as [_ H].
  destruct H as (Hh & _ & _ & Hx & _); [vm_compute; discriminate|].
  split; assumption.
Defined.

Lemma edits_leave_files_alone_witness :
  files (fst (gsp_app_delete posix sample_env
                (entry_of (loaded_world sample_env) 0)))
  = files sample_env.
Proof.
  destruct (edits_leave_files_alone posix sample_env
              (entry_of (loaded_world sample_env) 0) None None None 0 true)
    as (_ & _ & _ & H).
  apply H. vm_compute. reflexivity.
Defined.

Lemma delete_user_only_removes_file_witness :
  signals (fst (gsp_app_delete posix sample_env created_entry))
  = (REMOVED, basename created_entry) :: signals sample_env
  /\ save_timeout (snd (gsp_app_delete posix sample_env created_entry)) = 0.
Proof.
  destruct (delete_user_only_removes_file posix sample_env created_entry)
    as (_ & Hs & _ & Ht & _).
  - vm_compute. reflexivity.
  - vm_compute. reflexivity.
  - split; assumption.
Defined.

Lemma delete_with_system_copy_hides_witness :
  let r := gsp_app_delete posix sample_env
             (entry_of (loaded_world sample_env) 0) in
  hidden (snd r) = true /\ xdg_position (snd r) = 0.
Proof.
  cbv zeta.
  destruct (delete_with_system_copy_hides posix sample_env
              (entry_of (loaded_world sample_env) 0))
    as (Hh & _ & _ & Hx & _).
  - vm_compute. reflexivity.
  - split; assumption.
Defined.

Lemma save_touches_only_its_own_file_witness :
  let w := hidden_armed sample_env in
  files (snd (fst (_gsp_app_save (env w) (entry_of w 0))))
    !! "/etc/xdg/autostart/foo.desktop"
  = files (env w) !! "/etc/xdg/autostart/foo.desktop".
Proof.
  cbv zeta.
  destruct (save_touches_only_its_own_file (env (hidden_armed sample_env))
              (entry_of (hidden_armed sample_env) 0)
              "/etc/xdg/autostart/foo.desktop") as [H _].
  apply H. vm_compute. discriminate.
Defined.

Lemma dispose_clears_timer_witness :
  gsp_app_dispose sample_env (entry_of (loaded_world sample_env) 0)
  = (sample_env, entry_of (loaded_world sample_env) 0).
Proof.
  destruct (dispose_clears_timer sample_env
              (entry_of (loaded_world sample_env) 0)) as [H _].
  apply H. vm_compute. reflexivity.
Defined.

Lemma save_written_document_witness :
  let w := hidden_armed sample_env in
  let r := _gsp_app_save (env w) (entry_of w 0) in
  exists keyfile,
    g_key_file_load_from_file (snd (fst r)) (path (entry_of w 0)) = Some keyfile
    /\ kf_hidden keyfile = Some true
    /\ kf_name keyfile = Some "Foo"
    /\ kf_exec keyfile = Some "foo --daemon".
Proof.
  cbv zeta.
  destruct (save_written_document (env (hidden_armed sample_env))
              (snd (fst (_gsp_app_save (env (hidden_armed sample_env))
                           (entry_of (hidden_armed sample_env) 0))))
              (entry_of (hidden_armed sample_env) 0)
              (snd (_gsp_app_save (env (hidden_armed sample_env))
                      (entry_of (hidden_armed sample_env) 0)))
              foo_system_file)
    as (kf & Hl & Hh & _ & Hn & _ & Hx & _).
  - vm_compute. reflexivity.
  - vm_compute. reflexivity.
  - exists kf. rewrite Hl, Hh, Hn, Hx. repeat split.
Defined.

Lemma create_flush_load_round_trip_witness :
  let w1 := gsp_app_create posix (loaded_world sample_env) (Some "Bar")
              (Some "A bar") (Some "bar --now") 5 in
  exists p e' p',
    heap w1 !! 1%nat = Some p
    /\ _gsp_app_save (env w1) p = (Written, e', p')
    /\ gsp_app_new posix (set_env (empty_world sample_env) e')
         "/home/u/.config/autostart/bar.desktop" 0
       = (Returned, Some 0%nat,
          {| env := e';
             heap := <[0%nat := set_skip_next_monitor_event false p']> ∅;
             next_obj := 1; apps := nil |}).
Proof.
  cbv zeta.
  destruct (create_flush_load_round_trip posix (loaded_world sample_env)
              "Bar" "A bar" "bar --now" 5 "bar" ["--now"] "bar.desktop")
    as (p & e' & p' & Hh & _ & Hs & Hn).
  - vm_compute. reflexivity.
  - vm_compute. reflexivity.
  - vm_compute. reflexivity.
  - vm_compute. reflexivity.
  - vm_compute. reflexivity.
  - vm_compute. reflexivity.
  - vm_compute. reflexivity.
  - exists p, e', p'. split; [exact Hh|]. split; [exact Hs|].
    apply (Hn (empty_world sample_env)). vm_compute. reflexivity.
Defined.

Lemma find_free_basename_ignores_desktop_suffix_witness :
  _gsp_find_free_basename posix (loaded_world sample_env) ("foo" ++ ".desktop")
  = _gsp_find_free_basename posix (loaded_world sample_env) "foo".
Proof.
  apply (find_free_basename_ignores_desktop_suffix posix
           (loaded_world sample_env) "foo").
  vm_compute. reflexivity.
Defined.

Lemma create_failure_changes_nothing_witness :
  gsp_app_create posix (loaded_world sample_env) (Some "Blank") None
    (Some "   ") 0
  = loaded_world sample_env.
Proof.
  apply (create_failure_changes_nothing posix (loaded_world sample_env)
           (Some "Blank") None (Some "   ") 0).
  left. vm_compute. reflexivity.
Defined.

Lemma create_registers_armed_entry_witness :
  let w := loaded_world sample_env in
  let w' := gsp_app_create posix w (Some "Bar") None (Some "bar") 5 in
  exists p,
    apps w' = next_obj w :: apps w
    /\ heap w' = <[next_obj w := p]> (heap w)
    /\ files (env w') = files (env w)
    /\ save_mask p = GSP_ASP_SAVE_MASK_ALL
    /\ xdg_position p = 0.
Proof.
  cbv zeta.
  destruct (create_registers_armed_entry posix (loaded_world sample_env)
              (Some "Bar") None "bar" 5 "bar" nil "bar.desktop")
    as (p & Ha & Hh & _ & Hf & _ & _ & _ & Hm & Hx & _).
  - vm_compute. reflexivity.
  - vm_compute. reflexivity.
  - vm_compute. reflexivity.
  - exists p. exact (conj Ha (conj Hh (conj Hf (conj Hm Hx)))).
Defined.

Lemma copy_failure_leaves_no_file_witness :
  fst (gsp_app_copy_desktop_file posix local_files (loaded_world baz_env)
         "/opt/tweaks.desktop") = false
  /\ files (env (snd (gsp_app_copy_desktop_file posix local_files
                        (loaded_world baz_env) "/opt/tweaks.desktop")))
     = files (env (loaded_world baz_env)).
Proof.
  split; [vm_compute; reflexivity|].
  apply (copy_failure_leaves_no_file posix local_files (loaded_world baz_env)
           "/opt/tweaks.desktop").
  vm_compute. reflexivity.
Defined.

